(** * otio-drp-adapter: the .drp reader ([adapters/drp.py])

    A shallow embedding of [read_from_file], the only function of the
    adapter, and the properties of the timeline it builds.

    The file read is line-delimited JSON: a header object, then one object
    per scene switch.  The embedding follows the Python statement by
    statement, with every exception the interpreter can raise on the way
    made explicit as a result value.

    Two library calls are kept abstract, as Section variables, so that the
    theorems hold whatever those libraries do:
    - [json_loads], for [json.loads] ([None] when it raises);
    - [from_timecode], for [otio.opentime.from_timecode] ([None] when it
      raises on the text or on the rate).

    Times of [otio.opentime] are immutable value objects; every time built
    here carries the header's rate, where [+] and [-] act on the frame
    counts, which are whole numbers. *)

From Stdlib Require Import ZArith Ascii String List Bool Lia.
From stdpp Require Import base option list countable gmap strings.

Set Warnings "-register-all".

Open Scope string_scope.
Open Scope list_scope.
Open Scope Z_scope.

(** ** Python values and exceptions *)

(** What [json.loads] builds: [None], [bool], [int], [str], [list], [dict].
    Numbers are the integers (the numeric fields of the format, [_index_]
    and [source], are indices).  A [dict] is kept as the list of its items;
    a lookup takes the first item with the key. *)
Inductive json : Type :=
| JNull
| JBool (b : bool)
| JNum (n : Z)
| JStr (s : string)
| JArr (items : list json)
| JObj (fields : list (string * json)).

(** The exceptions [read_from_file] can end with.  [NoSources] is the
    adapter's own [Exception("No sources in drp file")]. *)
Inductive pyerr : Type :=
| JSONDecodeError
| KeyError
| IndexError
| TypeError
| ValueError
| AttributeError
| NoSources.

(** A computation that returns or raises. *)
Inductive result (A : Type) : Type :=
| Ok (a : A)
| Raise (e : pyerr).
Arguments Ok {A} a.
Arguments Raise {A} e.

#[global] Instance result_ret : MRet result := fun A a => Ok a.
#[global] Instance result_bind : MBind result := fun A B f m =>
  match m with
  | Ok a => f a
  | Raise e => Raise e
  end.

(** [try: m except e: handler]: only the named exception is caught. *)
Definition try_except {A} (m : result A) (caught : pyerr -> bool) (handler : A) : result A :=
  match m with
  | Ok a => Ok a
  | Raise e => if caught e then Ok handler else Raise e
  end.

Definition is_KeyError (e : pyerr) : bool :=
  match e with
  | KeyError => true
  | _ => false
  end.

(** ** Builtins on [str] *)

(** ASCII whitespace as [str.strip()] sees it: tab to carriage return, the
    four separators 28 to 31, and the space. *)
Definition is_space (c : ascii) : bool :=
  let n := nat_of_ascii c in
  ((9 <=? n)%nat && (n <=? 13)%nat) || ((28 <=? n)%nat && (n <=? 32)%nat).

Fixpoint lstrip (s : string) : string :=
  match s with
  | EmptyString => EmptyString
  | String c s' => if is_space c then lstrip s' else s
  end.

Fixpoint rstrip (s : string) : string :=
  match s with
  | EmptyString => EmptyString
  | String c s' =>
      match rstrip s' with
      | EmptyString => if is_space c then EmptyString else String c EmptyString
      | r => String c r
      end
  end.

(** [s.strip()] *)
Definition strip (s : string) : string := rstrip (lstrip s).

(** [s.split(sep)] for a one-character separator. *)
Fixpoint split (sep : ascii) (s : string) : list string :=
  match s with
  | EmptyString => [EmptyString]
  | String c s' =>
      if Ascii.eqb c sep then EmptyString :: split sep s'
      else match split sep s' with
           | h :: t => String c h :: t
           | [] => [String c EmptyString]
           end
  end.

Definition digit_val (c : ascii) : option Z :=
  let n := nat_of_ascii c in
  if (48 <=? n)%nat && (n <=? 57)%nat then Some (Z.of_nat (n - 48)) else None.

(** Decimal digits, where single underscores may sit between digits. *)
Fixpoint int_digits (s : string) (acc : Z) (after_digit : bool) : option Z :=
  match s with
  | EmptyString => if after_digit then Some acc else None
  | String c s' =>
      match digit_val c with
      | Some d => int_digits s' (10 * acc + d) true
      | None =>
          if Ascii.eqb c "_" && after_digit then int_digits s' acc false else None
      end
  end.

(** [int(s)]: surrounding whitespace, an optional sign, decimal digits;
    [ValueError] otherwise. *)
Definition py_int (s : string) : result Z :=
  let parsed :=
    match strip s with
    | String "+" r => int_digits r 0 false
    | String "-" r => Z.opp <$> int_digits r 0 false
    | t => int_digits t 0 false
    end in
  match parsed with
  | Some n => Ok n
  | None => Raise ValueError
  end.

(** [k in s] on two [str]: [k] occurs in [s]. *)
Fixpoint occurs_in (k s : string) : bool :=
  String.prefix k s ||
  match s with
  | EmptyString => false
  | String _ s' => occurs_in k s'
  end.

(** ** Subscripts, membership and iteration on decoded values *)

Fixpoint assoc (k : string) (fields : list (string * json)) : option json :=
  match fields with
  | [] => None
  | (k', v) :: rest => if String.eqb k k' then Some v else assoc k rest
  end.

(** [v[k]] for a [str] key [k]. *)
Definition getitem (v : json) (k : string) : result json :=
  match v with
  | JObj fields =>
      match assoc k fields with
      | Some x => Ok x
      | None => Raise KeyError
      end
  | _ => Raise TypeError
  end.

(** [v[0]].  The keys of a decoded object are all [str], so [0] is never
    among them. *)
Definition getitem0 (v : json) : result json :=
  match v with
  | JArr (x :: _) => Ok x
  | JArr [] => Raise IndexError
  | JStr (String c _) => Ok (JStr (String c EmptyString))
  | JStr EmptyString => Raise IndexError
  | JObj _ => Raise KeyError
  | _ => Raise TypeError
  end.

Definition is_str (k : string) (v : json) : bool :=
  match v with
  | JStr s => String.eqb k s
  | _ => false
  end.

(** [k in v] for a [str] [k]: a key of a [dict], an element of a [list],
    a substring of a [str]; the other types are not iterable. *)
Definition contains (k : string) (v : json) : result bool :=
  match v with
  | JObj fields => Ok (bool_decide (is_Some (assoc k fields)))
  | JArr items => Ok (existsb (is_str k) items)
  | JStr s => Ok (occurs_in k s)
  | _ => Raise TypeError
  end.

Fixpoint chars (s : string) : list json :=
  match s with
  | EmptyString => []
  | String c s' => JStr (String c EmptyString) :: chars s'
  end.

(** What [for x in v] goes through. *)
Definition iterate (v : json) : result (list json) :=
  match v with
  | JArr items => Ok items
  | JObj fields => Ok (map (fun kv => JStr (fst kv)) fields)
  | JStr s => Ok (chars s)
  | _ => Raise TypeError
  end.

(** Keys of the [extrefs] dict.  [True] and [1] (and [False] and [0]) hash
    and compare equal, so they are one key; lists and dicts do not hash. *)
Inductive pykey : Type :=
| KNone
| KInt (n : Z)
| KStr (s : string).

#[global] Instance pykey_eq_dec : EqDecision pykey.
Proof. solve_decision. Defined.

#[global] Instance pykey_countable : Countable pykey :=
  inj_countable'
    (fun k => match k with
              | KNone => inl ()
              | KInt n => inr (inl n)
              | KStr s => inr (inr s)
              end)
    (fun x => match x with
              | inl _ => KNone
              | inr (inl n) => KInt n
              | inr (inr s) => KStr s
              end)
    (fun k => match k with
              | KNone => eq_refl
              | KInt _ => eq_refl
              | KStr _ => eq_refl
              end).

Definition to_key (v : json) : result pykey :=
  match v with
  | JNull => Ok KNone
  | JBool b => Ok (KInt (if b then 1 else 0))
  | JNum n => Ok (KInt n)
  | JStr s => Ok (KStr s)
  | JArr _ | JObj _ => Raise TypeError
  end.

(** ** The timeline objects built *)

(** [otio.opentime.RationalTime]. *)
Record RationalTime : Type := { value : Z; rate : Z }.

(** [a + b] and [a - b] of two times at one rate. *)
Definition rt_add (a b : RationalTime) : RationalTime :=
  {| value := value a + value b; rate := rate a |}.
Definition rt_sub (a b : RationalTime) : RationalTime :=
  {| value := value a - value b; rate := rate a |}.

(** [otio.opentime.TimeRange]. *)
Record TimeRange : Type := { start_time : RationalTime; duration : RationalTime }.

(** [otio.schema.ExternalReference]. *)
Record ExternalReference : Type :=
  { target_url : string; available_range : TimeRange }.

(** [otio.schema.Clip]; no media reference is [None]. *)
Record Clip : Type :=
  { name : string;
    media_reference : option ExternalReference;
    source_range : TimeRange }.

(** [otio.schema.Track] and [otio.schema.Timeline].  The timeline's name
    comes from the path alone and is left out. *)
Record Track : Type := { track_name : string; children : list Clip }.
Record Timeline : Type := { tracks : list Track }.

(** The start frame and the duration, in frames, a clip is created with. *)
Definition clip_start (c : Clip) : Z := value (start_time (source_range c)).
Definition clip_duration (c : Clip) : Z := value (duration (source_range c)).

(** A source dict of the header once the first loop has gone over it: its
    decoded fields, and what the loop stored under ["ref"]. *)
Record Source : Type :=
  { src_fields : list (string * json);
    src_ref : option ExternalReference }.

(** The running variables of the loop over the switches, with the clips
    appended to the track so far. *)
Record loop_state : Type :=
  { current_tc : RationalTime;
    current_source : json;
    track : list Clip }.

(** How one round of the loop ends: on to the next switch, out through
    [break], or out through an exception, the track being what it is then. *)
Inductive round : Type :=
| Continue (st : loop_state)
| Break (st : loop_state)
| Abort (e : pyerr) (clips : list Clip).

(** How the loop ends. *)
Inductive loop_end : Type :=
| Finished (st : loop_state)
| Aborted (e : pyerr) (clips : list Clip).

(** How [read_from_file] ends: it returns the timeline, or an exception
    leaves it; [clips] are the clips appended to the track by then. *)
Inductive outcome : Type :=
| Returned (t : Timeline)
| Raised (e : pyerr) (clips : list Clip).

(** ** [read_from_file] *)

Module drp.

Section Reader.

(** [json.loads]: the decoded value, [None] for [JSONDecodeError]. *)
Variable json_loads : string -> option json.

(** [otio.opentime.from_timecode]: the frame count of a timecode at a
    rate, [None] for [ValueError]. *)
Variable from_timecode : string -> Z -> option Z.

(** [json.loads(line.strip())] *)
Definition decode (line : string) : result json :=
  match json_loads (strip line) with
  | Some v => Ok v
  | None => Raise JSONDecodeError
  end.

(** Lines 28-30: every remaining line is decoded, in file order. *)
Fixpoint read_switches (timeline_data : list json) (lines : list string)
  : result (list json) :=
  match lines with
  | [] => Ok timeline_data
  | line :: rest =>
      c ← decode line;
      read_switches (timeline_data ++ [c]) rest
  end.

(** Lines 25-30.  [lines] is what iterating the open file gives;
    [readline()] at the end of the file gives the empty string. *)
Definition read_lines (lines : list string) : result (json * list json) :=
  metadata ← decode (hd EmptyString lines);
  timeline_data ← read_switches [] (tl lines);
  Ok (metadata, timeline_data).

(** [otio.opentime.from_timecode(v, rate)]; the binding takes a [str]. *)
Definition timecode (v : json) (rate : Z) : result RationalTime :=
  match v with
  | JStr s =>
      match from_timecode s rate with
      | Some n => Ok {| value := n; rate := rate |}
      | None => Raise ValueError
      end
  | _ => Raise TypeError
  end.

(** Lines 38-39: [widths, rates = metadata["videoMode"].split("p")],
    [rate = int(rates)]. *)
Definition video_rate (metadata : json) : result Z :=
  mode ← getitem metadata "videoMode";
  match mode with
  | JStr s =>
      match split "p" s with
      | [widths; rates] => py_int rates
      | _ => Raise ValueError
      end
  | _ => Raise AttributeError
  end.

(** Lines 36-47: the reference timecode and the rate, with the check that
    the header has sources. *)
Definition header_times (metadata : json) : result (Z * RationalTime) :=
  mt ← getitem metadata "masterTimecode";
  rate ← video_rate metadata;
  has_sources ← contains "sources" metadata;
  if negb has_sources then Raise NoSources
  else
    tc_ref ← timecode mt rate;
    Ok (rate, tc_ref).

(** Lines 50-52: the duration of the full scene, from the last switch. *)
Definition full_duration (rate : Z) (tc_ref : RationalTime) (timeline_data : list json)
  : result RationalTime :=
  match last timeline_data with
  | None => Raise IndexError
  | Some c =>
      last_tc ← getitem c "masterTimecode";
      end_frame ← timecode last_tc rate;
      Ok (rt_sub end_frame tc_ref)
  end.

(** Lines 64-73, one source: [src["ref"]] is set, and [src] goes into
    [extrefs] under its [_index_].  [ExternalReference] takes a [str]. *)
Definition add_source (available_range : TimeRange) (extrefs : gmap pykey Source)
    (src : json) : result (gmap pykey Source) :=
  match src with
  | JObj fields =>
      has_file ← contains "file" src;
      ref ← (if has_file : bool then
               file ← getitem src "file";
               match file with
               | JStr url =>
                   Ok (Some {| target_url := url; available_range := available_range |})
               | _ => Raise TypeError
               end
             else Ok None);
      index ← getitem src "_index_";
      key ← to_key index;
      Ok (<[key := {| src_fields := fields; src_ref := ref |}]> extrefs)
  | _ => Raise TypeError
  end.

(** Lines 62-73. *)
Fixpoint add_sources (available_range : TimeRange) (extrefs : gmap pykey Source)
    (sources : list json) : result (gmap pykey Source) :=
  match sources with
  | [] => Ok extrefs
  | src :: rest =>
      extrefs' ← add_source available_range extrefs src;
      add_sources available_range extrefs' rest
  end.

(** Lines 76-79: the scene chosen before the show starts. *)
Definition initial_source (metadata : json) : result json :=
  try_except
    (blocks ← getitem metadata "mixEffectBlocks";
     first ← getitem0 blocks;
     getitem first "source")
    is_KeyError (JNum 0).

(** [extrefs[current_source]] *)
Definition lookup_source (extrefs : gmap pykey Source) (current_source : json)
  : result Source :=
  key ← to_key current_source;
  match extrefs !! key with
  | Some src => Ok src
  | None => Raise KeyError
  end.

(** Lines 84-96: the clip of one switch, and [next_clip_frames].  [Clip]
    takes a [str] as its name. *)
Definition next_clip (rate : Z) (tc_ref : RationalTime) (extrefs : gmap pykey Source)
    (st : loop_state) (c : json) : result (Clip * RationalTime) :=
  tc ← getitem c "masterTimecode";
  next_clip_tc ← timecode tc rate;
  let next_clip_frames := rt_sub next_clip_tc tc_ref in
  src ← lookup_source extrefs (current_source st);
  nm ← getitem (JObj (src_fields src)) "name";
  match nm with
  | JStr n =>
      Ok ({| name := n;
             media_reference := src_ref src;
             source_range := {| start_time := current_tc st;
                                duration := next_clip_frames |} |},
          next_clip_frames)
  | _ => Raise TypeError
  end.

(** Lines 102-105: the source the switch goes to, or [None] where the
    loop breaks. *)
Definition next_source (c : json) : result (option json) :=
  blocks ← getitem c "mixEffectBlocks";
  first ← getitem0 blocks;
  has_source ← contains "source" first;
  if has_source : bool then
    s ← getitem first "source";
    Ok (Some s)
  else Ok None.

(** Lines 83-105: one round of the loop. *)
Definition switch (rate : Z) (tc_ref : RationalTime) (extrefs : gmap pykey Source)
    (st : loop_state) (c : json) : round :=
  match next_clip rate tc_ref extrefs st c with
  | Raise e => Abort e (track st)
  | Ok (clip, next_clip_frames) =>
      let track' := track st ++ [clip] in
      let current_tc' := rt_add (current_tc st) next_clip_frames in
      match next_source c with
      | Raise e => Abort e track'
      | Ok (Some s) =>
          Continue {| current_tc := current_tc'; current_source := s; track := track' |}
      | Ok None =>
          Break {| current_tc := current_tc';
                   current_source := current_source st;
                   track := track' |}
      end
  end.

(** Lines 82-105. *)
Fixpoint main_loop (rate : Z) (tc_ref : RationalTime) (extrefs : gmap pykey Source)
    (st : loop_state) (timeline_data : list json) : loop_end :=
  match timeline_data with
  | [] => Finished st
  | c :: rest =>
      match switch rate tc_ref extrefs st c with
      | Continue st' => main_loop rate tc_ref extrefs st' rest
      | Break st' => Finished st'
      | Abort e clips => Aborted e clips
      end
  end.

(** Lines 36-79: all that is set before the loop. *)
Definition prepare (metadata : json) (timeline_data : list json)
  : result (Z * RationalTime * gmap pykey Source * loop_state) :=
  '(rate, tc_ref) ← header_times metadata;
  let current_tc := {| value := 0; rate := rate |} in
  duration ← full_duration rate tc_ref timeline_data;
  let available_range := {| start_time := current_tc; duration := duration |} in
  sources ← getitem metadata "sources";
  srcs ← iterate sources;
  extrefs ← add_sources available_range ∅ srcs;
  current_source ← initial_source metadata;
  Ok (rate, tc_ref, extrefs,
      {| current_tc := current_tc; current_source := current_source; track := [] |}).

Definition read_from_file (lines : list string) : outcome :=
  match read_lines lines with
  | Raise e => Raised e []
  | Ok (metadata, timeline_data) =>
      match prepare metadata timeline_data with
      | Raise e => Raised e []
      | Ok (rate, tc_ref, extrefs, st) =>
          match main_loop rate tc_ref extrefs st timeline_data with
          | Finished st' =>
              Returned {| tracks := [{| track_name := "Main Mix"; children := track st' |}] |}
          | Aborted e clips => Raised e clips
          end
      end
  end.

End Reader.

End drp.

Import drp.

(** ** A decoder and a timecode reader to run logs with

    The theorems below hold for every [json_loads] and [from_timecode].
    To run the reader on the text of a log, this module gives one of each:
    a decoder for JSON documents whose numbers are integers and whose
    strings have no [\u] escapes (any other text is refused), and a reader
    of non-drop-frame [HH:MM:SS:FF] timecodes at a whole rate. *)
Module Sample.

Definition is_ws (c : ascii) : bool :=
  Ascii.eqb c " " || Ascii.eqb c "009" || Ascii.eqb c "010" || Ascii.eqb c "013".

Fixpoint skip_ws (s : string) : string :=
  match s with
  | EmptyString => EmptyString
  | String c s' => if is_ws c then skip_ws s' else s
  end.

Definition unescape (c : ascii) : option ascii :=
  if Ascii.eqb c "034" then Some "034"%char
  else if Ascii.eqb c "\" then Some "\"%char
  else if Ascii.eqb c "/" then Some "/"%char
  else if Ascii.eqb c "b" then Some "008"%char
  else if Ascii.eqb c "f" then Some "012"%char
  else if Ascii.eqb c "n" then Some "010"%char
  else if Ascii.eqb c "r" then Some "013"%char
  else if Ascii.eqb c "t" then Some "009"%char
  else None.

(** After an opening quote: the characters up to the closing quote, and
    the text after it. *)
Fixpoint string_body (s : string) : option (string * string) :=
  match s with
  | EmptyString => None
  | String c s' =>
      if Ascii.eqb c "034" then Some (EmptyString, s')
      else if Ascii.eqb c "\" then
        match s' with
        | String e s'' =>
            ch ← unescape e;
            '(t, r) ← string_body s'';
            Some (String ch t, r)
        | EmptyString => None
        end
      else if (nat_of_ascii c <? 32)%nat then None
      else
        '(t, r) ← string_body s';
        Some (String c t, r)
  end.

Fixpoint digits (s : string) (acc : Z) : Z * string :=
  match s with
  | EmptyString => (acc, s)
  | String c s' =>
      match digit_val c with
      | Some d => digits s' (10 * acc + d)
      | None => (acc, s)
      end
  end.

Definition starts_fraction (s : string) : bool :=
  match s with
  | String c _ => Ascii.eqb c "." || Ascii.eqb c "e" || Ascii.eqb c "E"
  | EmptyString => false
  end.

(** An integer literal; one with a fraction or an exponent is refused. *)
Definition number (s : string) : option (Z * string) :=
  let '(negative, s1) :=
    match s with
    | String "-" r => (true, r)
    | _ => (false, s)
    end in
  match s1 with
  | String c r =>
      d ← digit_val c;
      let '(n, rest) := if d =? 0 then (0, r) else digits r d in
      if starts_fraction rest then None
      else Some (if negative : bool then - n else n, rest)
  | EmptyString => None
  end.

Definition literal (word : string) (v : json) (s : string) : option (json * string) :=
  if String.prefix word s
  then Some (v, String.substring (String.length word)
                  (String.length s - String.length word) s)
  else None.

(** [d[k] = v] on the items of a dict. *)
Fixpoint set_field (k : string) (v : json) (fields : list (string * json))
  : list (string * json) :=
  match fields with
  | [] => [(k, v)]
  | (k', v') :: rest =>
      if String.eqb k k' then (k, v) :: rest else (k', v') :: set_field k v rest
  end.

Fixpoint parse_value (fuel : nat) (s : string) : option (json * string) :=
  match fuel with
  | O => None
  | S fuel' =>
      match skip_ws s with
      | String "{" r =>
          match skip_ws r with
          | String "}" r' => Some (JObj [], r')
          | r1 => parse_members fuel' r1 []
          end
      | String "[" r =>
          match skip_ws r with
          | String "]" r' => Some (JArr [], r')
          | r1 => parse_elements fuel' r1 []
          end
      | String "034" r =>
          '(t, r') ← string_body r;
          Some (JStr t, r')
      | String "t" _ as w => literal "true" (JBool true) w
      | String "f" _ as w => literal "false" (JBool false) w
      | String "n" _ as w => literal "null" JNull w
      | w => '(n, r) ← number w; Some (JNum n, r)
      end
  end
with parse_members (fuel : nat) (s : string) (acc : list (string * json))
  : option (json * string) :=
  match fuel with
  | O => None
  | S fuel' =>
      match skip_ws s with
      | String "034" r =>
          '(k, r1) ← string_body r;
          match skip_ws r1 with
          | String ":" r2 =>
              '(v, r3) ← parse_value fuel' r2;
              let acc' := set_field k v acc in
              match skip_ws r3 with
              | String "," r4 => parse_members fuel' r4 acc'
              | String "}" r4 => Some (JObj acc', r4)
              | _ => None
              end
          | _ => None
          end
      | _ => None
      end
  end
with parse_elements (fuel : nat) (s : string) (acc : list json)
  : option (json * string) :=
  match fuel with
  | O => None
  | S fuel' =>
      '(v, r) ← parse_value fuel' s;
      let acc' := acc ++ [v] in
      match skip_ws r with
      | String "," r' => parse_elements fuel' r' acc'
      | String "]" r' => Some (JArr acc', r')
      | _ => None
      end
  end.

(** One document, with nothing but whitespace after it. *)
Definition json_loads (s : string) : option json :=
  '(v, rest) ← parse_value (2 * String.length s + 2) s;
  match skip_ws rest with
  | EmptyString => Some v
  | _ => None
  end.

Definition two_digits (a b : ascii) : option Z :=
  x ← digit_val a;
  y ← digit_val b;
  Some (10 * x + y).

(** [HH:MM:SS:FF] at a whole rate, the frame number below the rate. *)
Definition from_timecode (tc : string) (rate : Z) : option Z :=
  match tc with
  | String h1 (String h2 (String ":" (String m1 (String m2 (String ":"
      (String s1 (String s2 (String ":" (String f1 (String f2
         EmptyString)))))))))) =>
      h ← two_digits h1 h2;
      m ← two_digits m1 m2;
      s ← two_digits s1 s2;
      f ← two_digits f1 f2;
      if (0 <? rate) && (f <? rate)
      then Some (((h * 60 + m) * 60 + s) * rate + f)
      else None
  | _ => None
  end.

(** Logs are written here with ['] for the quotation mark. *)
Fixpoint q (s : string) : string :=
  match s with
  | EmptyString => EmptyString
  | String c s' => String (if Ascii.eqb c "'" then "034"%char else c) (q s')
  end.

(** A line of a file, with its end of line. *)
Definition line (s : string) : string := (q s ++ String "010" EmptyString)%string.

End Sample.

(** ** Sample logs *)
Module Log.
Import Sample.

(** A header at 25 frames a second with three sources and no initial
    scene, the reference timecode being one hour. *)
Definition header : string :=
  line "{'masterTimecode': '01:00:00:00', 'videoMode': '1080p25', 'sources': [{'_index_': 0, 'name': 'Black'}, {'_index_': 1, 'name': 'Camera 1', 'file': 'CAM 1.mp4'}, {'_index_': 2, 'name': 'Camera 2', 'file': 'CAM 2.mp4'}]}".

(** Headers whose initial scene cannot be read. *)
Definition header_first_block_empty : string :=
  line "{'masterTimecode': '01:00:00:00', 'videoMode': '1080p25', 'sources': [{'_index_': 0, 'name': 'Black'}], 'mixEffectBlocks': [{}]}".
Definition header_no_blocks : string :=
  line "{'masterTimecode': '01:00:00:00', 'videoMode': '1080p25', 'sources': [{'_index_': 0, 'name': 'Black'}], 'mixEffectBlocks': []}".

(** Headers without sources, and with an empty list of them. *)
Definition header_without_sources : string :=
  line "{'masterTimecode': '01:00:00:00', 'videoMode': '1080p25', 'mixEffectBlocks': [{'source': 1}]}".
Definition header_empty_sources : string :=
  line "{'masterTimecode': '01:00:00:00', 'videoMode': '1080p25', 'sources': [], 'mixEffectBlocks': [{'source': 1}]}".

(** A header whose only source is number 1. *)
Definition header_source_1_only : string :=
  line "{'masterTimecode': '01:00:00:00', 'videoMode': '1080p25', 'sources': [{'_index_': 1, 'name': 'Camera 1', 'file': 'CAM 1.mp4'}], 'mixEffectBlocks': [{'source': 1}]}".

(** Switches 25, 50, 75 and 100 frames after the reference; the third
    one names no source. *)
Definition to_2_at_25 : string :=
  line "{'masterTimecode': '01:00:01:00', 'mixEffectBlocks': [{'source': 2}]}".
Definition to_1_at_50 : string :=
  line "{'masterTimecode': '01:00:02:00', 'mixEffectBlocks': [{'source': 1}]}".
Definition end_at_75 : string :=
  line "{'masterTimecode': '01:00:03:00', 'mixEffectBlocks': [{}]}".
Definition to_2_at_100 : string :=
  line "{'masterTimecode': '01:00:04:00', 'mixEffectBlocks': [{'source': 2}]}".

(** A switch to a source the header does not list. *)
Definition to_7_at_25 : string :=
  line "{'masterTimecode': '01:00:01:00', 'mixEffectBlocks': [{'source': 7}]}".

(** A line with nothing on it, and a line that is not JSON. *)
Definition blank : string := line "".
Definition garbage : string := line "{'masterTimecode': ".

Definition two_switches : list string := [header; to_2_at_25; to_1_at_50].
Definition show : list string := [header; to_2_at_25; to_1_at_50; end_at_75].
Definition show_and_more : list string :=
  [header; to_2_at_25; to_1_at_50; end_at_75; to_2_at_100].

(** The reader on the sample decoder and timecode reader. *)
Definition read (lines : list string) : outcome :=
  read_from_file json_loads from_timecode lines.

(** What a line decodes to. *)
Definition decoded (l : string) : json :=
  default JNull (json_loads (strip l)).

(** The reference of the sample headers, at their rate. *)
Definition reference : RationalTime := {| value := 90000; rate := 25 |}.

(** The state the loop starts in, given the initial source. *)
Definition start (source : json) : loop_state :=
  {| current_tc := {| value := 0; rate := 25 |};
     current_source := source;
     track := [] |}.

(** What lines 36 to 79 set for a log, and its [extrefs]. *)
Definition prepared (lines : list string)
  : option (Z * RationalTime * gmap pykey Source * loop_state) :=
  match read_lines json_loads lines with
  | Ok (metadata, timeline_data) =>
      match prepare from_timecode metadata timeline_data with
      | Ok p => Some p
      | Raise _ => None
      end
  | Raise _ => None
  end.
Definition catalogue (lines : list string) : gmap pykey Source :=
  match prepared lines with
  | Some (_, _, extrefs, _) => extrefs
  | None => ∅
  end.

(** The items of a decoded object. *)
Definition fields_of (l : string) : list (string * json) :=
  match decoded l with
  | JObj fields => fields
  | _ => []
  end.

End Log.

(** ** What the statements are about *)

(** The clips returned, those of the one track. *)
Definition returned_clips (t : Timeline) : list Clip :=
  concat (map children (tracks t)).

(** The sum of the durations of clips, in frames. *)
Definition total_duration (clips : list Clip) : Z :=
  foldr (fun c n => clip_duration c + n) 0 clips.

(** A run of clips from frame [from] to frame [to], each starting where
    the one before ends. *)
Fixpoint contiguous (from : Z) (clips : list Clip) (to : Z) : Prop :=
  match clips with
  | [] => from = to
  | c :: rest => clip_start c = from /\ contiguous (from + clip_duration c) rest to
  end.

(** A switch that names the source it goes to, and one that names none. *)
Definition names_source (c : json) : Prop :=
  exists s, next_source c = Ok (Some s).
Definition names_no_source (c : json) : Prop :=
  next_source c = Ok None.

(** The switches up to and including the first that names no source. *)
Fixpoint up_to_first_sourceless (timeline_data : list json) : list json :=
  match timeline_data with
  | [] => []
  | c :: rest =>
      match next_source c with
      | Ok None => [c]
      | _ => c :: up_to_first_sourceless rest
      end
  end.

(** A clip as the round of switch [c] makes it: the frames from the
    reference to the timecode of [c] are its duration. *)
Definition emitted_at (from_timecode : string -> Z -> option Z) (fps : Z)
    (tc_ref : RationalTime) (c : json) (clip : Clip) : Prop :=
  exists tc n,
    getitem c "masterTimecode" = Ok (JStr tc) /\
    from_timecode tc fps = Some n /\
    clip_duration clip = n - value tc_ref.

(** The switches as the specification words their reading: a line that is
    empty once stripped is passed over, every other line is decoded. *)
Fixpoint read_switches_skipping_blank (json_loads : string -> option json)
    (lines : list string) : result (list json) :=
  match lines with
  | [] => Ok []
  | l :: rest =>
      if String.eqb (strip l) EmptyString
      then read_switches_skipping_blank json_loads rest
      else
        c ← decode json_loads l;
        cs ← read_switches_skipping_blank json_loads rest;
        Ok (c :: cs)
  end.

(** ** The name of the timeline *)





(** ** The sources behind the clips *)

(** [src["_index_"]] as a key of [extrefs]. *)
Definition source_key (src : json) : result pykey :=
  index ← getitem src "_index_";
  to_key index.

(** What lines 64 to 71 leave under ["ref"] for a source with these
    fields, where they do not raise. *)
Definition stored_ref (available_range : TimeRange) (fields : list (string * json))
  : option ExternalReference :=
  match assoc "file" fields with
  | Some (JStr url) => Some {| target_url := url; available_range := available_range |}
  | _ => None
  end.

(** A clip named and referenced after the entry of [extrefs] for the
    source [source]. *)
Definition made_from (extrefs : gmap pykey Source) (source : json) (clip : Clip) : Prop :=
  exists src,
    lookup_source extrefs source = Ok src /\
    assoc "name" (src_fields src) = Some (JStr (name clip)) /\
    media_reference clip = src_ref src.

(** The source current at each of the switches, from the one current at
    the first. *)
Fixpoint active_sources (current_source : json) (timeline_data : list json)
  : list json :=
  match timeline_data with
  | [] => []
  | c :: rest =>
      current_source ::
      active_sources
        (match next_source c with
         | Ok (Some s) => s
         | _ => current_source
         end) rest
  end.

(** A clip whose start and duration are times at the rate [fps]. *)
Definition at_rate (fps : Z) (clip : Clip) : Prop :=
  rate (start_time (source_range clip)) = fps /\
  rate (duration (source_range clip)) = fps.

(** A source of the header whose index is the key of the value [source],
    with its fields. *)
Definition listed_as (srcs : list json) (source : json) (fields : list (string * json))
  : Prop :=
  In (JObj fields) srcs /\
  exists k, to_key source = Ok k /\ source_key (JObj fields) = Ok k.

(** Fields whose ["file"], where there is one, is a [str]. *)
Definition file_is_str (fields : list (string * json)) : Prop :=
  assoc "file" fields = None \/ exists url, assoc "file" fields = Some (JStr url).

(** ** More sample lines *)
Module Edge.
Import Sample.

(** A switch without ["mixEffectBlocks"], one whose blocks are the empty
    array, and one whose timecode is no timecode. *)
Definition no_blocks_at_50 : string :=
  line "{'masterTimecode': '01:00:02:00'}".
Definition empty_blocks_at_50 : string :=
  line "{'masterTimecode': '01:00:02:00', 'mixEffectBlocks': []}".
Definition bad_timecode : string :=
  line "{'masterTimecode': 'later', 'mixEffectBlocks': [{'source': 1}]}".

(** A header that lists the index 1 twice. *)
Definition header_index_twice : string :=
  line "{'masterTimecode': '01:00:00:00', 'videoMode': '1080p25', 'sources': [{'_index_': 1, 'name': 'Camera 1', 'file': 'CAM 1.mp4'}, {'_index_': 1, 'name': 'Spare'}], 'mixEffectBlocks': [{'source': 1}]}".

(** Headers without a timecode, without a video mode, and one that is an
    array; video modes that are no [<width>p<rate>]. *)
Definition header_without_timecode : string :=
  line "{'videoMode': '1080p25', 'mixEffectBlocks': [{'source': 1}]}".
Definition header_without_mode : string :=
  line "{'masterTimecode': '01:00:00:00', 'sources': []}".
Definition header_array : string := line "[]".

End Edge.

(** ** Raising and returning *)

Lemma bind_Ok {A B} (m : result A) (f : A -> result B) (b : B) :
  m ≫= f = Ok b -> exists a, m = Ok a /\ f a = Ok b.
Proof. destruct m as [a|e]; simpl; [eauto | discriminate]. Qed.

(** Takes a successful chain of binds apart, one call at a time. *)
Ltac ok_inv H :=
  repeat match type of H with
         | _ ≫= _ = Ok _ =>
             let a := fresh "a" in
             let Ha := fresh "Ha" in
             apply bind_Ok in H as (a & Ha & H)
         end.

(** ** The loop over the switches *)

Section Rounds.

Variable from_timecode : string -> Z -> option Z.
Variables (fps : Z) (tc_ref : RationalTime) (extrefs : gmap pykey Source).

Abbreviation next_clip := (next_clip from_timecode fps tc_ref extrefs).
Abbreviation switch := (switch from_timecode fps tc_ref extrefs).
Abbreviation main_loop := (main_loop from_timecode fps tc_ref extrefs).

(** The clip of a round starts at the cursor and lasts
    [next_clip_frames], the frames from the reference to the switch. *)
Lemma next_clip_range st c clip frames :
  next_clip st c = Ok (clip, frames) ->
  exists tc n,
    getitem c "masterTimecode" = Ok (JStr tc) /\
    from_timecode tc fps = Some n /\
    frames = rt_sub {| value := n; rate := fps |} tc_ref /\
    source_range clip = {| start_time := current_tc st; duration := frames |}.
Proof.
  unfold drp.next_clip. intros H. ok_inv H.
  destruct a as [| | |tc| |]; try discriminate Ha0.
  simpl in Ha0. destruct (from_timecode tc fps) as [n|] eqn:Hn; [|discriminate].
  injection Ha0 as <-.
  destruct a2 as [| | |nm| |]; try discriminate H.
  injection H as <- <-. exists tc, n. auto.
Qed.

Lemma switch_Continue st c st' :
  switch st c = Continue st' ->
  exists clip frames s,
    next_clip st c = Ok (clip, frames) /\
    next_source c = Ok (Some s) /\
    st' = {| current_tc := rt_add (current_tc st) frames;
             current_source := s;
             track := track st ++ [clip] |}.
Proof.
  unfold drp.switch. intros H.
  destruct (next_clip st c) as [[clip frames]|e]; [|discriminate].
  destruct (next_source c) as [[s|]|e]; try discriminate.
  injection H as <-. eauto 6.
Qed.

Lemma switch_Break st c st' :
  switch st c = Break st' ->
  exists clip frames,
    next_clip st c = Ok (clip, frames) /\
    next_source c = Ok None /\
    st' = {| current_tc := rt_add (current_tc st) frames;
             current_source := current_source st;
             track := track st ++ [clip] |}.
Proof.
  unfold drp.switch. intros H.
  destruct (next_clip st c) as [[clip frames]|e]; [|discriminate].
  destruct (next_source c) as [[s|]|e]; try discriminate.
  injection H as <-. eauto 6.
Qed.

(** A round that does not abort appends exactly one clip, which starts at
    the cursor, and moves the cursor by the clip's duration. *)
Lemma switch_appends st c st' :
  switch st c = Continue st' \/ switch st c = Break st' ->
  exists clip,
    track st' = track st ++ [clip] /\
    clip_start clip = value (current_tc st) /\
    value (current_tc st') = value (current_tc st) + clip_duration clip.
Proof.
  intros [H|H].
  - apply switch_Continue in H as (clip & frames & s & Hc & _ & ->).
    apply next_clip_range in Hc as (tc & n & _ & _ & _ & Hr).
    exists clip. unfold clip_start, clip_duration. rewrite Hr. auto.
  - apply switch_Break in H as (clip & frames & Hc & _ & ->).
    apply next_clip_range in Hc as (tc & n & _ & _ & _ & Hr).
    exists clip. unfold clip_start, clip_duration. rewrite Hr. auto.
Qed.

Lemma contiguous_snoc from clips to c :
  contiguous from clips to ->
  clip_start c = to ->
  contiguous from (clips ++ [c]) (to + clip_duration c).
Proof.
  revert from. induction clips as [|c0 clips IH]; simpl; intros from H Hc.
  - subst. auto.
  - destruct H as [H0 H]. auto.
Qed.

Lemma contiguous_lookup from clips to :
  contiguous from clips to ->
  (forall c0, clips !! 0%nat = Some c0 -> clip_start c0 = from) /\
  (forall (i : nat) c c',
      clips !! i = Some c -> clips !! S i = Some c' ->
      clip_start c' = clip_start c + clip_duration c).
Proof.
  revert from. induction clips as [|c0 clips IH]; simpl; intros from H.
  - split; intros; discriminate.
  - destruct H as [H0 H]. split.
    + intros c Hc. injection Hc as <-. exact H0.
    + intros [|i] c c' Hc Hc'; simpl in *.
      * injection Hc as <-. destruct (IH _ H) as [Hfirst _].
        rewrite (Hfirst _ Hc'). lia.
      * destruct (IH _ H) as [_ Hnext]. eauto.
Qed.

(** The clips of the track stay contiguous, from frame 0 to the cursor. *)
Lemma main_loop_contiguous timeline_data st st' :
  contiguous 0 (track st) (value (current_tc st)) ->
  main_loop st timeline_data = Finished st' ->
  contiguous 0 (track st') (value (current_tc st')).
Proof.
  revert st. induction timeline_data as [|c rest IH]; simpl; intros st Hinv H.
  - injection H as <-. exact Hinv.
  - destruct (switch st c) as [st1|st1|e clips] eqn:Hs; [| |discriminate].
    + apply (IH st1); [|exact H].
      destruct (switch_appends st c st1) as (clip & -> & Hstart & ->); [auto|].
      apply contiguous_snoc; assumption.
    + injection H as <-.
      destruct (switch_appends st c st1) as (clip & -> & Hstart & ->); [auto|].
      apply contiguous_snoc; assumption.
Qed.

Abbreviation emitted_at := (emitted_at from_timecode fps tc_ref).

Lemma next_clip_emitted st c clip frames :
  next_clip st c = Ok (clip, frames) -> emitted_at c clip.
Proof.
  intros H. apply next_clip_range in H as (tc & n & Htc & Hn & -> & Hr).
  exists tc, n. unfold clip_duration. rewrite Hr. auto.
Qed.

(** Past switches that all name a source, the loop is where the loop
    over them alone ends. *)
Lemma main_loop_app pre rest st st1 :
  Forall names_source pre ->
  main_loop st pre = Finished st1 ->
  main_loop st (pre ++ rest) = main_loop st1 rest.
Proof.
  revert st. induction pre as [|c pre IH]; simpl; intros st Hpre H.
  - injection H as <-. reflexivity.
  - apply Forall_cons in Hpre as [[s Hs] Hpre].
    destruct (switch st c) as [st2|st2|e clips] eqn:Hsw; [| |discriminate].
    + apply IH; assumption.
    + apply switch_Break in Hsw as (? & ? & _ & Hnone & _). congruence.
Qed.

(** The loop never looks past a switch that names no source. *)
Lemma main_loop_cut timeline_data st :
  main_loop st timeline_data = main_loop st (up_to_first_sourceless timeline_data).
Proof.
  revert st. induction timeline_data as [|c rest IH]; simpl; intros st; [reflexivity|].
  destruct (next_source c) as [[s|]|e] eqn:Hc; simpl;
    destruct (switch st c) as [st1|st1|e' clips] eqn:Hsw; auto.
  apply switch_Continue in Hsw as (? & ? & s & _ & Hs & _). congruence.
Qed.

(** Where the loop ends normally, the clips appended are those of the
    rounds of the switches it went through, one each, in order. *)
Lemma main_loop_clips timeline_data st st' :
  main_loop st timeline_data = Finished st' ->
  exists clips,
    track st' = track st ++ clips /\
    Forall2 emitted_at (up_to_first_sourceless timeline_data) clips.
Proof.
  revert st. induction timeline_data as [|c rest IH]; simpl; intros st H.
  - injection H as <-. exists []. rewrite app_nil_r. auto.
  - destruct (switch st c) as [st1|st1|e clips] eqn:Hsw; [| |discriminate].
    + apply switch_Continue in Hsw as (clip & frames & s & Hc & -> & ->).
      apply IH in H as (clips & Htrack & Hall). simpl in Htrack.
      exists (clip :: clips). split.
      * rewrite Htrack, <- app_assoc. reflexivity.
      * constructor; [eapply next_clip_emitted; eassumption | exact Hall].
    + injection H as <-.
      apply switch_Break in Hsw as (clip & frames & Hc & -> & ->).
      exists [clip]. split; [reflexivity|].
      constructor; [eapply next_clip_emitted; eassumption | constructor].
Qed.

(** The switches that name a source, then one that names none, are where
    [up_to_first_sourceless] cuts. *)
Lemma up_to_first_sourceless_app pre term post :
  Forall names_source pre ->
  names_no_source term ->
  up_to_first_sourceless (pre ++ term :: post) = pre ++ [term].
Proof.
  intros Hpre Hterm. induction Hpre as [|c pre [s Hs] Hpre IH]; simpl.
  - unfold names_no_source in Hterm. rewrite Hterm. reflexivity.
  - rewrite Hs, IH. reflexivity.
Qed.

(** Where the loop gets past switches that all name a source, each of
    them has had its clip appended, and nothing else has. *)
Lemma main_loop_running_clips pre st st1 :
  Forall names_source pre ->
  main_loop st pre = Finished st1 ->
  exists clips, track st1 = track st ++ clips /\ Forall2 emitted_at pre clips.
Proof.
  intros Hpre. revert st.
  induction Hpre as [|c pre [s Hs] Hpre IH]; simpl; intros st H.
  - injection H as <-. exists []. rewrite app_nil_r. auto.
  - destruct (switch st c) as [st2|st2|e clips] eqn:Hsw; [| |discriminate].
    + apply switch_Continue in Hsw as (clip & frames & s' & Hc & _ & ->).
      apply IH in H as (clips & Htrack & Hall). simpl in Htrack.
      exists (clip :: clips). split.
      * rewrite Htrack, <- app_assoc. reflexivity.
      * constructor; [eapply next_clip_emitted; eassumption | exact Hall].
    + apply switch_Break in Hsw as (? & ? & _ & Hnone & _). congruence.
Qed.

(** A round whose source is not a key of [extrefs] aborts on the lookup,
    once the timecode of the switch is read, with the track as it was. *)
Lemma switch_unknown_source st c rest tc n k :
  getitem c "masterTimecode" = Ok (JStr tc) ->
  from_timecode tc fps = Some n ->
  to_key (current_source st) = Ok k ->
  extrefs !! k = None ->
  main_loop st (c :: rest) = Aborted KeyError (track st).
Proof.
  intros Htc Hn Hk Hnone. simpl.
  unfold drp.switch, drp.next_clip, timecode, lookup_source.
  rewrite Htc. simpl. rewrite Hn. simpl. rewrite Hk. simpl.
  rewrite Hnone. reflexivity.
Qed.

End Rounds.

(** ** The whole reading *)

Section Reading.

Variable json_loads : string -> option json.
Variable from_timecode : string -> Z -> option Z.

Abbreviation decode := (decode json_loads).
Abbreviation read_switches := (read_switches json_loads).
Abbreviation read_lines := (read_lines json_loads).
Abbreviation timecode := (timecode from_timecode).
Abbreviation header_times := (header_times from_timecode).
Abbreviation full_duration := (full_duration from_timecode).
Abbreviation prepare := (prepare from_timecode).
Abbreviation main_loop := (main_loop from_timecode).
Abbreviation read_from_file := (read_from_file json_loads from_timecode).

Lemma read_switches_Ok lines timeline_data switches :
  read_switches timeline_data lines = Ok switches <->
  exists new,
    switches = timeline_data ++ new /\
    Forall2 (fun l c => json_loads (strip l) = Some c) lines new.
Proof.
  revert timeline_data. induction lines as [|l lines IH]; simpl; intros acc.
  - split.
    + intros [= <-]. exists []. rewrite app_nil_r. auto.
    + intros (new & -> & Hnew). apply Forall2_nil_inv_l in Hnew as ->.
      rewrite app_nil_r. reflexivity.
  - unfold drp.decode. destruct (json_loads (strip l)) as [c|] eqn:Hl; simpl.
    + rewrite IH. split.
      * intros (new & -> & Hnew). exists (c :: new).
        rewrite <- app_assoc. split; [reflexivity|]. constructor; assumption.
      * intros (new & -> & Hnew).
        apply Forall2_cons_inv_l in Hnew as (c' & new' & Hc' & Hnew' & ->).
        exists new'. rewrite <- app_assoc. split; [|assumption].
        simpl. congruence.
    + split; [discriminate|].
      intros (new & _ & Hnew).
      apply Forall2_cons_inv_l in Hnew as (c' & new' & Hc' & _). congruence.
Qed.

Lemma read_switches_refused lines timeline_data l :
  In l lines ->
  json_loads (strip l) = None ->
  read_switches timeline_data lines = Raise JSONDecodeError.
Proof.
  intros Hin Hl. revert timeline_data.
  induction lines as [|l0 lines IH]; simpl; intros acc; [contradiction|].
  unfold drp.decode. destruct (json_loads (strip l0)) as [c|] eqn:Hl0; simpl.
  - destruct Hin as [->|Hin]; [congruence | auto].
  - reflexivity.
Qed.

Lemma read_lines_Ok lines metadata timeline_data :
  read_lines lines = Ok (metadata, timeline_data) ->
  json_loads (strip (hd EmptyString lines)) = Some metadata /\
  read_switches [] (tl lines) = Ok timeline_data.
Proof.
  unfold drp.read_lines, drp.decode. intros H.
  destruct (json_loads (strip (hd EmptyString lines))) as [m|]; [|discriminate].
  simpl in H. destruct (read_switches [] (tl lines)) as [td|]; [|discriminate].
  simpl in H. injection H as <- <-. auto.
Qed.

Lemma prepare_Ok metadata timeline_data fps tc_ref extrefs st :
  prepare metadata timeline_data = Ok (fps, tc_ref, extrefs, st) ->
  exists full sources srcs source,
    header_times metadata = Ok (fps, tc_ref) /\
    full_duration fps tc_ref timeline_data = Ok full /\
    getitem metadata "sources" = Ok sources /\
    iterate sources = Ok srcs /\
    add_sources {| start_time := {| value := 0; rate := fps |}; duration := full |}
      ∅ srcs = Ok extrefs /\
    initial_source metadata = Ok source /\
    st = {| current_tc := {| value := 0; rate := fps |};
            current_source := source;
            track := [] |}.
Proof.
  unfold drp.prepare. intros H.
  apply bind_Ok in H as ([fps' tc_ref'] & Hh & H). ok_inv H.
  injection H as <- <- <- <-. eauto 12.
Qed.

Lemma read_from_file_Returned lines t :
  read_from_file lines = Returned t ->
  exists metadata timeline_data fps tc_ref extrefs st st',
    read_lines lines = Ok (metadata, timeline_data) /\
    prepare metadata timeline_data = Ok (fps, tc_ref, extrefs, st) /\
    main_loop fps tc_ref extrefs st timeline_data = Finished st' /\
    t = {| tracks := [{| track_name := "Main Mix"; children := track st' |}] |}.
Proof.
  unfold drp.read_from_file. intros H.
  destruct (read_lines lines) as [[metadata td]|] eqn:Hlines; [|discriminate].
  destruct (prepare metadata td) as [[[[fps tc_ref] extrefs] st]|] eqn:Hprep;
    [|discriminate].
  destruct (main_loop fps tc_ref extrefs st td) as [st'|] eqn:Hloop; [|discriminate].
  injection H as <-. exists metadata, td, fps, tc_ref, extrefs, st, st'. auto.
Qed.

(** No clip comes out of a round when [extrefs] is empty. *)
Lemma next_clip_no_sources fps tc_ref st c :
  exists e, next_clip from_timecode fps tc_ref ∅ st c = Raise e.
Proof.
  unfold next_clip, lookup_source.
  destruct (getitem c "masterTimecode") as [tc|]; simpl; [|eauto].
  destruct (timecode tc fps); simpl; [|eauto].
  destruct (to_key (current_source st)); simpl; [|eauto].
  rewrite lookup_empty. eauto.
Qed.

(** A header without the key ["sources"] does not get through lines 36
    to 47; where its timecode and video mode are read, line 45 raises. *)
Lemma header_times_no_sources fields :
  assoc "sources" fields = None ->
  exists e, header_times (JObj fields) = Raise e /\
    (forall mt fps, getitem (JObj fields) "masterTimecode" = Ok mt ->
                    video_rate (JObj fields) = Ok fps -> e = NoSources).
Proof.
  intros Hnone. unfold drp.header_times.
  destruct (getitem (JObj fields) "masterTimecode") as [mt|e]; simpl.
  2: { exists e. split; [reflexivity | discriminate]. }
  destruct (video_rate (JObj fields)) as [fps|e]; simpl.
  2: { exists e. split; [reflexivity | discriminate]. }
  rewrite Hnone. simpl. exists NoSources. auto.
Qed.

End Reading.

(** ** The sample logs, decoded *)

Example header_decoded :
  Log.decoded Log.header =
    JObj [("masterTimecode", JStr "01:00:00:00");
          ("videoMode", JStr "1080p25");
          ("sources",
            JArr [JObj [("_index_", JNum 0); ("name", JStr "Black")];
                  JObj [("_index_", JNum 1); ("name", JStr "Camera 1");
                        ("file", JStr "CAM 1.mp4")];
                  JObj [("_index_", JNum 2); ("name", JStr "Camera 2");
                        ("file", JStr "CAM 2.mp4")]])].
Proof. reflexivity. Qed.

Example switches_decoded :
  map Log.decoded [Log.to_2_at_25; Log.end_at_75] =
    [JObj [("masterTimecode", JStr "01:00:01:00");
           ("mixEffectBlocks", JArr [JObj [("source", JNum 2)]])];
     JObj [("masterTimecode", JStr "01:00:03:00");
           ("mixEffectBlocks", JArr [JObj []])]].
Proof. reflexivity. Qed.

Example blank_and_garbage_refused :
  strip Log.blank = EmptyString /\
  Sample.json_loads (strip Log.blank) = None /\
  Sample.json_loads (strip Log.garbage) = None.
Proof. repeat split; reflexivity. Qed.

Example reference_read :
  header_times Sample.from_timecode (Log.decoded Log.header) = Ok (25, Log.reference).
Proof. reflexivity. Qed.

(** ** The clips of a reading *)

(** C1.  On the sample log of two switches, 25 and 50 frames after the
    reference, the clip of the second round starts at frame 25, where the
    cursor is, and is given the duration 50, the offset of the second
    switch from the reference; the frames since the cursor are 25. *)
Theorem duration_at_second_switch :
  exists c1 c2,
    Log.read Log.two_switches =
      Returned {| tracks := [{| track_name := "Main Mix"; children := [c1; c2] |}] |} /\
    getitem (Log.decoded Log.to_1_at_50) "masterTimecode" = Ok (JStr "01:00:02:00") /\
    Sample.from_timecode "01:00:02:00" 25 = Some (value Log.reference + 50) /\
    clip_start c2 = 25 /\
    clip_duration c2 = 50.
Proof.
  eexists _, _. split; [vm_compute; reflexivity|].
  repeat split; reflexivity.
Qed.

(** C2.  On the same log the durations of the two clips returned add up to
    75 frames, while the last switch is 50 frames after the reference, which
    is what lines 50 to 52 compute as the duration of the full scene. *)
Theorem total_duration_of_two_switches :
  exists clips,
    Log.read Log.two_switches =
      Returned {| tracks := [{| track_name := "Main Mix"; children := clips |}] |} /\
    total_duration clips = 75 /\
    full_duration Sample.from_timecode 25 Log.reference
      [Log.decoded Log.to_2_at_25; Log.decoded Log.to_1_at_50]
    = Ok {| value := 50; rate := 25 |}.
Proof.
  eexists. split; [vm_compute; reflexivity|].
  split; reflexivity.
Qed.

(** C3.  Whenever [read_from_file] returns a timeline, its clips are
    contiguous: the first one starts at frame 0, and every next one starts
    at the start frame of the one before plus its duration. *)
Theorem clips_contiguous
    (json_loads : string -> option json) (from_timecode : string -> Z -> option Z)
    (lines : list string) (t : Timeline) :
  read_from_file json_loads from_timecode lines = Returned t ->
  (forall c0, returned_clips t !! 0%nat = Some c0 -> clip_start c0 = 0) /\
  (forall (i : nat) c c',
      returned_clips t !! i = Some c ->
      returned_clips t !! S i = Some c' ->
      clip_start c' = clip_start c + clip_duration c).
Proof.
  intros H.
  apply read_from_file_Returned in H
    as (metadata & td & fps & tc_ref & extrefs & st & st' & _ & Hprep & Hloop & ->).
  apply prepare_Ok in Hprep as (? & ? & ? & source & _ & _ & _ & _ & _ & _ & ->).
  apply main_loop_contiguous in Hloop; [|reflexivity].
  unfold returned_clips. simpl. rewrite app_nil_r.
  eapply contiguous_lookup. exact Hloop.
Qed.

Lemma clips_contiguous_on_show :
  exists t,
    Log.read Log.show = Returned t /\
    map clip_start (returned_clips t) = [0; 25; 75] /\
    (forall c0, returned_clips t !! 0%nat = Some c0 -> clip_start c0 = 0) /\
    (forall (i : nat) c c',
        returned_clips t !! i = Some c ->
        returned_clips t !! S i = Some c' ->
        clip_start c' = clip_start c + clip_duration c).
Proof.
  eexists. split; [vm_compute; reflexivity|].
  split; [reflexivity|].
  apply (clips_contiguous Sample.json_loads Sample.from_timecode Log.show).
  vm_compute. reflexivity.
Defined.

(** C4.  The loop makes one clip for each switch up to and including the
    first one that names no source, and none for a switch after it: on any
    switches it ends as it does on those up to and including the first that
    names no source, and where it finishes, the clips appended to the track
    are those of the rounds of these switches, one each, in order.  On
    switches [pre] that all name a source, then [term] that names none,
    then any [post], these are [pre] and [term]. *)
Theorem loop_stops_at_first_sourceless
    (from_timecode : string -> Z -> option Z) (fps : Z) (tc_ref : RationalTime)
    (extrefs : gmap pykey Source) (st : loop_state) (timeline_data : list json) :
  main_loop from_timecode fps tc_ref extrefs st timeline_data
  = main_loop from_timecode fps tc_ref extrefs st
      (up_to_first_sourceless timeline_data) /\
  (forall st',
      main_loop from_timecode fps tc_ref extrefs st timeline_data = Finished st' ->
      exists clips,
        track st' = track st ++ clips /\
        length clips = length (up_to_first_sourceless timeline_data) /\
        Forall2 (emitted_at from_timecode fps tc_ref)
          (up_to_first_sourceless timeline_data) clips) /\
  (forall pre term post,
      timeline_data = pre ++ term :: post ->
      Forall names_source pre ->
      names_no_source term ->
      up_to_first_sourceless timeline_data = pre ++ [term]).
Proof.
  split; [apply main_loop_cut|]. split.
  - intros st' H.
    apply main_loop_clips in H as (clips & Htrack & Hall).
    exists clips. split; [exact Htrack|]. split; [|exact Hall].
    apply Forall2_length in Hall. auto.
  - intros pre term post -> Hpre Hterm.
    apply up_to_first_sourceless_app; assumption.
Qed.

Lemma loop_stops_on_show_and_more :
  exists st',
    main_loop Sample.from_timecode 25 Log.reference (Log.catalogue Log.show_and_more)
      (Log.start (JNum 0))
      [Log.decoded Log.to_2_at_25; Log.decoded Log.to_1_at_50;
       Log.decoded Log.end_at_75; Log.decoded Log.to_2_at_100]
    = Finished st' /\
    map name (track st') = ["Black"; "Camera 2"; "Camera 1"] /\
    up_to_first_sourceless
      [Log.decoded Log.to_2_at_25; Log.decoded Log.to_1_at_50;
       Log.decoded Log.end_at_75; Log.decoded Log.to_2_at_100]
    = [Log.decoded Log.to_2_at_25; Log.decoded Log.to_1_at_50] ++
      [Log.decoded Log.end_at_75] /\
    exists clips,
      track st' = track (Log.start (JNum 0)) ++ clips /\
      length clips =
        length (up_to_first_sourceless
                  [Log.decoded Log.to_2_at_25; Log.decoded Log.to_1_at_50;
                   Log.decoded Log.end_at_75; Log.decoded Log.to_2_at_100]) /\
      Forall2 (emitted_at Sample.from_timecode 25 Log.reference)
        (up_to_first_sourceless
           [Log.decoded Log.to_2_at_25; Log.decoded Log.to_1_at_50;
            Log.decoded Log.end_at_75; Log.decoded Log.to_2_at_100])
        clips.
Proof.
  pose proof (loop_stops_at_first_sourceless Sample.from_timecode 25 Log.reference
                (Log.catalogue Log.show_and_more) (Log.start (JNum 0))
                [Log.decoded Log.to_2_at_25; Log.decoded Log.to_1_at_50;
                 Log.decoded Log.end_at_75; Log.decoded Log.to_2_at_100])
    as (_ & Hclips & Hcut).
  eexists. split; [vm_compute; reflexivity|].
  split; [reflexivity|]. split.
  - apply (Hcut [Log.decoded Log.to_2_at_25; Log.decoded Log.to_1_at_50]
             (Log.decoded Log.end_at_75) [Log.decoded Log.to_2_at_100]).
    + reflexivity.
    + repeat constructor; [exists (JNum 2) | exists (JNum 1)]; reflexivity.
    + reflexivity.
  - apply Hclips. vm_compute. reflexivity.
Defined.

(** ** The initial scene *)

(** C5, as the code has it.  [except KeyError] catches a missing key only:
    where the header has no ["mixEffectBlocks"], or where the first of its
    blocks is an object without ["source"], the initial source is 0, and
    the loop starts on it once the rest of lines 36 to 79 has passed. *)
Theorem initial_source_defaults (fields : list (string * json)) :
  assoc "mixEffectBlocks" fields = None \/
  (exists first rest,
      assoc "mixEffectBlocks" fields = Some (JArr (JObj first :: rest)) /\
      assoc "source" first = None) ->
  initial_source (JObj fields) = Ok (JNum 0) /\
  forall from_timecode timeline_data fps tc_ref extrefs st,
    prepare from_timecode (JObj fields) timeline_data = Ok (fps, tc_ref, extrefs, st) ->
    current_source st = JNum 0.
Proof.
  intros H.
  assert (initial_source (JObj fields) = Ok (JNum 0)) as Hinit.
  { unfold initial_source. simpl.
    destruct H as [->|(first & rest & -> & Hfirst)]; simpl; [reflexivity|].
    rewrite Hfirst. reflexivity. }
  split; [exact Hinit|].
  intros from_timecode td fps tc_ref extrefs st Hprep.
  apply prepare_Ok in Hprep as (? & ? & ? & source & _ & _ & _ & _ & _ & Hsource & ->).
  simpl. congruence.
Qed.

Lemma initial_source_defaults_on_samples :
  (initial_source (JObj (Log.fields_of Log.header)) = Ok (JNum 0) /\
   initial_source (JObj (Log.fields_of Log.header_first_block_empty)) = Ok (JNum 0)) /\
  exists c,
    Log.read [Log.header_first_block_empty; Log.end_at_75] =
      Returned {| tracks := [{| track_name := "Main Mix"; children := [c] |}] |} /\
    name c = "Black".
Proof.
  split; [split|].
  - apply (initial_source_defaults (Log.fields_of Log.header)).
    left. reflexivity.
  - apply (initial_source_defaults (Log.fields_of Log.header_first_block_empty)).
    right. exists [], []. split; reflexivity.
  - eexists. split; [vm_compute; reflexivity | reflexivity].
Defined.

(** C5 as stated fails: a header whose ["mixEffectBlocks"] is the empty
    array raises [IndexError], which line 78 does not catch, and the
    reading ends with it, where it returns one clip when the first block is
    an empty object instead. *)
Lemma empty_blocks_are_fatal :
  initial_source (Log.decoded Log.header_no_blocks) = Raise IndexError /\
  Log.read [Log.header_no_blocks; Log.end_at_75] = Raised IndexError [].
Proof. split; vm_compute; reflexivity. Qed.

(** ** Failures before the loop *)

(** C6.  A file with no line after the header never returns a timeline:
    the reading ends with an exception before any clip is made; where the
    header passes lines 36 to 47 it is the [IndexError] of
    [timeline_data[-1]] on line 50. *)
Theorem header_only_fails
    (json_loads : string -> option json) (from_timecode : string -> Z -> option Z)
    (lines : list string) :
  tl lines = [] ->
  (exists e, read_from_file json_loads from_timecode lines = Raised e []) /\
  (forall metadata r,
      json_loads (strip (hd EmptyString lines)) = Some metadata ->
      header_times from_timecode metadata = Ok r ->
      read_from_file json_loads from_timecode lines = Raised IndexError []).
Proof.
  intros Htl.
  unfold read_from_file, read_lines, decode. rewrite Htl. simpl.
  destruct (json_loads (strip (hd EmptyString lines))) as [metadata|]; simpl.
  - unfold prepare.
    destruct (header_times from_timecode metadata) as [[fps tc_ref]|e] eqn:Hh; simpl.
    + split; [eauto|]. intros; reflexivity.
    + split; [eauto|]. intros m r [= <-] Hr. congruence.
  - split; [eauto|]. intros; congruence.
Qed.

Lemma header_only_fails_on_sample :
  (exists e, Log.read [Log.header] = Raised e []) /\
  Log.read [Log.header] = Raised IndexError [].
Proof.
  split.
  - apply (header_only_fails Sample.json_loads Sample.from_timecode [Log.header]).
    reflexivity.
  - apply (proj2 (header_only_fails Sample.json_loads Sample.from_timecode
                    [Log.header] eq_refl)
             (Log.decoded Log.header) (25, Log.reference)); reflexivity.
Defined.

(** C7.  A header without ["sources"], and one whose ["sources"] is the
    empty array, never give a timeline: the reading ends with an exception
    and no clip has been made by then. *)
Theorem no_sources_fails
    (json_loads : string -> option json) (from_timecode : string -> Z -> option Z)
    (lines : list string) (fields : list (string * json)) :
  json_loads (strip (hd EmptyString lines)) = Some (JObj fields) ->
  assoc "sources" fields = None \/ assoc "sources" fields = Some (JArr []) ->
  exists e, read_from_file json_loads from_timecode lines = Raised e [].
Proof.
  intros Hheader Hsources. unfold read_from_file.
  destruct (read_lines json_loads lines) as [[metadata td]|e] eqn:Hlines; [|eauto].
  apply read_lines_Ok in Hlines as [Hm _].
  assert (metadata = JObj fields) as -> by congruence.
  destruct (prepare from_timecode (JObj fields) td)
    as [[[[fps tc_ref] extrefs] st]|e] eqn:Hprep; [|eauto].
  apply prepare_Ok in Hprep
    as (full & sources & srcs & source & Hh & Hfull & Hs & Hit & Hadd & _ & ->).
  destruct Hsources as [Hnone|Hempty].
  - destruct (header_times_no_sources from_timecode fields Hnone) as (e & He & _).
    congruence.
  - simpl in Hs. rewrite Hempty in Hs. injection Hs as <-.
    injection Hit as <-. injection Hadd as <-.
    destruct td as [|c rest]; [discriminate Hfull|].
    simpl. unfold switch.
    destruct (next_clip_no_sources from_timecode fps tc_ref
                {| current_tc := {| value := 0; rate := fps |};
                   current_source := source; track := [] |} c) as [e ->].
    eauto.
Qed.

Lemma no_sources_fails_on_samples :
  (exists e, Log.read [Log.header_without_sources; Log.to_2_at_25; Log.end_at_75]
             = Raised e []) /\
  (exists e, Log.read [Log.header_empty_sources; Log.to_2_at_25; Log.end_at_75]
             = Raised e []) /\
  Log.read [Log.header_without_sources; Log.to_2_at_25; Log.end_at_75]
  = Raised NoSources [] /\
  Log.read [Log.header_empty_sources; Log.to_2_at_25; Log.end_at_75]
  = Raised KeyError [].
Proof.
  split; [|split].
  - apply (no_sources_fails Sample.json_loads Sample.from_timecode
             [Log.header_without_sources; Log.to_2_at_25; Log.end_at_75]
             (Log.fields_of Log.header_without_sources)).
    + reflexivity.
    + left. reflexivity.
  - apply (no_sources_fails Sample.json_loads Sample.from_timecode
             [Log.header_empty_sources; Log.to_2_at_25; Log.end_at_75]
             (Log.fields_of Log.header_empty_sources)).
    + reflexivity.
    + right. reflexivity.
  - split; vm_compute; reflexivity.
Defined.

(** ** The lines of the file *)

(** C8, as the code has it.  Lines 29 and 30 pass over no line: every line
    after the header is stripped and decoded, in file order, so the
    switches read are exactly what the lines decode to; and a line that is
    empty once stripped, the empty text being no JSON document, ends the
    reading with [JSONDecodeError] before any clip is made. *)
Theorem every_line_is_decoded
    (json_loads : string -> option json) (lines : list string) :
  (forall switches,
      read_switches json_loads [] lines = Ok switches <->
      Forall2 (fun l c => json_loads (strip l) = Some c) lines switches) /\
  (json_loads EmptyString = None ->
   forall from_timecode header l,
     In l lines ->
     strip l = EmptyString ->
     read_from_file json_loads from_timecode (header :: lines)
     = Raised JSONDecodeError []).
Proof.
  split.
  - intros switches. rewrite read_switches_Ok. simpl. split.
    + intros (new & -> & Hnew). exact Hnew.
    + intros Hall. exists switches. auto.
  - intros Hempty from_timecode header l Hin Hl.
    unfold read_from_file, read_lines. simpl.
    destruct (decode json_loads header) as [metadata|e] eqn:Hheader; simpl.
    + rewrite (read_switches_refused json_loads lines [] l Hin); [reflexivity|].
      rewrite Hl. exact Hempty.
    + unfold decode in Hheader.
      destruct (json_loads (strip header)); [discriminate|].
      injection Hheader as <-. reflexivity.
Qed.

Lemma every_line_is_decoded_on_samples :
  read_switches Sample.json_loads [] [Log.to_2_at_25; Log.end_at_75]
  = Ok [Log.decoded Log.to_2_at_25; Log.decoded Log.end_at_75] /\
  Log.read [Log.header; Log.to_2_at_25; Log.blank; Log.end_at_75]
  = Raised JSONDecodeError [].
Proof.
  split.
  - apply (every_line_is_decoded Sample.json_loads [Log.to_2_at_25; Log.end_at_75]).
    repeat constructor.
  - apply (proj2 (every_line_is_decoded Sample.json_loads
                    [Log.to_2_at_25; Log.blank; Log.end_at_75])
             eq_refl Sample.from_timecode Log.header Log.blank).
    + right. left. reflexivity.
    + reflexivity.
Defined.

(** C8 as stated fails: with a blank line between two switches, reading
    the switches as the specification words it gives the two switches, and
    the code raises [JSONDecodeError]; the file is read when the blank line
    is taken out. *)
Lemma blank_line_is_not_skipped :
  read_switches_skipping_blank Sample.json_loads
    [Log.to_2_at_25; Log.blank; Log.end_at_75]
  = Ok [Log.decoded Log.to_2_at_25; Log.decoded Log.end_at_75] /\
  read_switches Sample.json_loads [] [Log.to_2_at_25; Log.blank; Log.end_at_75]
  = Raise JSONDecodeError /\
  Log.read [Log.header; Log.to_2_at_25; Log.blank; Log.end_at_75]
  = Raised JSONDecodeError [] /\
  exists t, Log.read [Log.header; Log.to_2_at_25; Log.end_at_75] = Returned t.
Proof.
  repeat split; try (vm_compute; reflexivity).
  eexists. vm_compute. reflexivity.
Qed.

(** C9.  All lines are decoded before anything else is done: a line that
    [json.loads] refuses, wherever it stands after the header, ends the
    reading with [JSONDecodeError] and no clip made, also when it stands
    after a switch at which the loop would have stopped. *)
Theorem undecodable_line_aborts
    (json_loads : string -> option json) (from_timecode : string -> Z -> option Z)
    (header : string) (before : list string) (bad : string) (after : list string) :
  json_loads (strip bad) = None ->
  read_from_file json_loads from_timecode (header :: before ++ bad :: after)
  = Raised JSONDecodeError [].
Proof.
  intros Hbad. unfold read_from_file, read_lines. simpl.
  destruct (decode json_loads header) as [metadata|e] eqn:Hheader; simpl.
  - rewrite (read_switches_refused json_loads (before ++ bad :: after) [] bad);
      [reflexivity | | exact Hbad].
    apply in_or_app. right. left. reflexivity.
  - unfold decode in Hheader.
    destruct (json_loads (strip header)); [discriminate|].
    injection Hheader as <-. reflexivity.
Qed.

Lemma undecodable_line_after_the_end :
  Log.read ([Log.header; Log.to_2_at_25; Log.to_1_at_50; Log.end_at_75]
              ++ [Log.garbage])
  = Raised JSONDecodeError [] /\
  exists t,
    Log.read [Log.header; Log.to_2_at_25; Log.to_1_at_50; Log.end_at_75] = Returned t /\
    length (returned_clips t) = 3%nat.
Proof.
  split.
  - apply (undecodable_line_aborts Sample.json_loads Sample.from_timecode
             Log.header [Log.to_2_at_25; Log.to_1_at_50; Log.end_at_75]
             Log.garbage []).
    reflexivity.
  - eexists. split; [vm_compute; reflexivity | reflexivity].
Defined.

(** ** Sources that are not in the header *)

(** C10.  When the loop comes to a switch with a current source that is no
    key of [extrefs], and the timecode of the switch is read, the reading
    ends with the [KeyError] of the lookup: no timeline is returned, and
    the clips made by then are those of the rounds before, the round of
    this switch adding none. *)
Theorem unknown_source_aborts
    (json_loads : string -> option json) (from_timecode : string -> Z -> option Z)
    (lines : list string) (metadata : json)
    (pre : list json) (c : json) (post : list json)
    (fps : Z) (tc_ref : RationalTime) (extrefs : gmap pykey Source)
    (st st1 : loop_state) (tc : string) (n : Z) (k : pykey) :
  read_lines json_loads lines = Ok (metadata, pre ++ c :: post) ->
  prepare from_timecode metadata (pre ++ c :: post) = Ok (fps, tc_ref, extrefs, st) ->
  Forall names_source pre ->
  main_loop from_timecode fps tc_ref extrefs st pre = Finished st1 ->
  getitem c "masterTimecode" = Ok (JStr tc) ->
  from_timecode tc fps = Some n ->
  to_key (current_source st1) = Ok k ->
  extrefs !! k = None ->
  read_from_file json_loads from_timecode lines = Raised KeyError (track st1) /\
  Forall2 (emitted_at from_timecode fps tc_ref) pre (track st1).
Proof.
  intros Hlines Hprep Hpre Hloop Htc Hn Hk Hnone. split.
  - unfold read_from_file. rewrite Hlines, Hprep.
    rewrite (main_loop_app from_timecode fps tc_ref extrefs pre (c :: post) st st1
               Hpre Hloop).
    rewrite (switch_unknown_source from_timecode fps tc_ref extrefs st1 c post tc n k);
      auto.
  - apply prepare_Ok in Hprep as (? & ? & ? & source & _ & _ & _ & _ & _ & _ & ->).
    apply main_loop_running_clips in Hloop as (clips & Htrack & Hall); [|exact Hpre].
    simpl in Htrack. rewrite Htrack. exact Hall.
Qed.

Lemma unknown_source_after_one_clip :
  exists clip,
    (Log.read [Log.header_source_1_only; Log.to_7_at_25; Log.to_1_at_50]
     = Raised KeyError [clip] /\
     Forall2 (emitted_at Sample.from_timecode 25 Log.reference)
       [Log.decoded Log.to_7_at_25] [clip]) /\
    name clip = "Camera 1".
Proof.
  eexists. split.
  { apply (unknown_source_aborts Sample.json_loads Sample.from_timecode
           [Log.header_source_1_only; Log.to_7_at_25; Log.to_1_at_50]
           (Log.decoded Log.header_source_1_only)
           [Log.decoded Log.to_7_at_25] (Log.decoded Log.to_1_at_50) []
           25 Log.reference
           (Log.catalogue [Log.header_source_1_only; Log.to_7_at_25; Log.to_1_at_50])
           (Log.start (JNum 1))
           {| current_tc := {| value := 25; rate := 25 |};
              current_source := JNum 7;
              track := _ |}
           "01:00:02:00" 90050 (KInt 7)).
    - reflexivity.
    - vm_compute. reflexivity.
    - repeat constructor. exists (JNum 7). reflexivity.
    - vm_compute. reflexivity.
    - reflexivity.
    - reflexivity.
    - reflexivity.
    - vm_compute. reflexivity. }
  reflexivity.
Defined.

(** ** The catalogue of sources *)

Lemma add_source_Ok available_range (extrefs extrefs' : gmap pykey Source) src :
  add_source available_range extrefs src = Ok extrefs' ->
  exists fields k,
    src = JObj fields /\
    source_key src = Ok k /\
    file_is_str fields /\
    extrefs' = <[k := {| src_fields := fields;
                         src_ref := stored_ref available_range fields |}]> extrefs.
Proof.
  destruct src as [| | | | |fields]; try discriminate.
  unfold add_source, source_key, stored_ref. simpl.
  destruct (assoc "file" fields) as [file|] eqn:Hfile.
  - rewrite bool_decide_eq_true_2 by eauto. simpl.
    destruct file as [| | |url| |]; try discriminate. simpl.
    destruct (assoc "_index_" fields) as [index|]; [|discriminate]. simpl.
    destruct (to_key index) as [k|]; [|discriminate]. simpl.
    intros [= <-]. exists fields, k. rewrite Hfile.
    repeat split. right. exists url. exact Hfile.
  - rewrite bool_decide_eq_false_2 by (intros [? ?]; discriminate). simpl.
    destruct (assoc "_index_" fields) as [index|]; [|discriminate]. simpl.
    destruct (to_key index) as [k|]; [|discriminate]. simpl.
    intros [= <-]. exists fields, k. rewrite Hfile.
    repeat split. left. exact Hfile.
Qed.

Lemma add_sources_cons available_range src rest (extrefs extrefs' : gmap pykey Source) :
  add_sources available_range extrefs (src :: rest) = Ok extrefs' ->
  exists mid,
    add_source available_range extrefs src = Ok mid /\
    add_sources available_range mid rest = Ok extrefs'.
Proof. intros H. apply bind_Ok in H. exact H. Qed.

Lemma add_sources_app available_range a b (extrefs extrefs' : gmap pykey Source) :
  add_sources available_range extrefs (a ++ b) = Ok extrefs' <->
  exists mid,
    add_sources available_range extrefs a = Ok mid /\
    add_sources available_range mid b = Ok extrefs'.
Proof.
  revert extrefs. induction a as [|src a IH]; simpl; intros extrefs.
  - split; [eauto|]. intros (mid & [= <-] & H). exact H.
  - destruct (add_source available_range extrefs src) as [m1|e]; simpl.
    + apply IH.
    + split; [discriminate|]. intros (mid & H & _). discriminate.
Qed.

(** Sources under other indices leave the entry of an index as it is. *)
Lemma add_sources_other available_range srcs (extrefs extrefs' : gmap pykey Source) k :
  add_sources available_range extrefs srcs = Ok extrefs' ->
  Forall (fun src => source_key src <> Ok k) srcs ->
  extrefs' !! k = extrefs !! k.
Proof.
  revert extrefs. induction srcs as [|src srcs IH]; simpl; intros extrefs H Hall.
  - injection H as <-. reflexivity.
  - apply Forall_cons in Hall as [Hsrc Hall].
    apply bind_Ok in H as (m1 & H1 & H).
    apply add_source_Ok in H1 as (fields & k' & -> & Hk' & _ & ->).
    rewrite (IH _ H Hall). apply lookup_insert_ne. congruence.
Qed.

(** Every entry of the catalogue was put there for a source of the list. *)
Lemma add_sources_entries available_range srcs (extrefs extrefs' : gmap pykey Source) :
  add_sources available_range extrefs srcs = Ok extrefs' ->
  forall k src,
    extrefs' !! k = Some src ->
    extrefs !! k = Some src \/
    (In (JObj (src_fields src)) srcs /\
     source_key (JObj (src_fields src)) = Ok k /\
     file_is_str (src_fields src) /\
     src_ref src = stored_ref available_range (src_fields src)).
Proof.
  revert extrefs. induction srcs as [|s srcs IH]; simpl; intros extrefs H k src Hk.
  - injection H as <-. auto.
  - apply bind_Ok in H as (m1 & H1 & H).
    apply add_source_Ok in H1 as (fields & k' & -> & Hk' & Hfile & ->).
    destruct (IH _ H k src Hk) as [Hin|(Hin & Hkey & Href)].
    + destruct (decide (k' = k)) as [->|Hne].
      * rewrite lookup_insert_eq in Hin. injection Hin as <-. simpl. auto.
      * rewrite lookup_insert_ne in Hin by exact Hne. auto.
    + right. auto.
Qed.

(** X3.  Where two sources of the header have one index, the later one is
    the entry of [extrefs]: after the first loop, the entry of an index is
    made of the fields of the last source with that index, with the
    reference lines 64 to 71 store for it. *)
Theorem last_source_of_an_index_wins
    (available_range : TimeRange) (extrefs extrefs' : gmap pykey Source)
    (pre : list json) (fields : list (string * json)) (post : list json) (k : pykey) :
  add_sources available_range extrefs (pre ++ JObj fields :: post) = Ok extrefs' ->
  source_key (JObj fields) = Ok k ->
  Forall (fun src => source_key src <> Ok k) post ->
  extrefs' !! k = Some {| src_fields := fields;
                          src_ref := stored_ref available_range fields |}.
Proof.
  intros H Hk Hpost.
  apply add_sources_app in H as (mid & _ & H).
  apply add_sources_cons in H as (m1 & H1 & H).
  apply add_source_Ok in H1 as (fields' & k' & [= <-] & Hk' & _ & ->).
  rewrite (add_sources_other _ _ _ _ k H Hpost).
  assert (k' = k) as -> by congruence.
  apply lookup_insert_eq.
Qed.

Lemma last_source_wins_on_sample :
  Log.catalogue [Edge.header_index_twice; Log.end_at_75] !! KInt 1 =
    Some {| src_fields := [("_index_", JNum 1); ("name", JStr "Spare")];
            src_ref := stored_ref
                         {| start_time := {| value := 0; rate := 25 |};
                            duration := {| value := 75; rate := 25 |} |}
                         [("_index_", JNum 1); ("name", JStr "Spare")] |} /\
  exists c,
    Log.read [Edge.header_index_twice; Log.end_at_75] =
      Returned {| tracks := [{| track_name := "Main Mix"; children := [c] |}] |} /\
    name c = "Spare" /\
    media_reference c = None.
Proof.
  split.
  - apply (last_source_of_an_index_wins
             {| start_time := {| value := 0; rate := 25 |};
                duration := {| value := 75; rate := 25 |} |}
             ∅ (Log.catalogue [Edge.header_index_twice; Log.end_at_75])
             [JObj [("_index_", JNum 1); ("name", JStr "Camera 1");
                    ("file", JStr "CAM 1.mp4")]]
             [("_index_", JNum 1); ("name", JStr "Spare")] [] (KInt 1)).
    + vm_compute. reflexivity.
    + reflexivity.
    + constructor.
  - eexists. split; [vm_compute; reflexivity|]. split; reflexivity.
Defined.

(** ** The clips and their sources *)

Section Clips.

Variable from_timecode : string -> Z -> option Z.
Variables (fps : Z) (tc_ref : RationalTime) (extrefs : gmap pykey Source).

Abbreviation next_clip := (next_clip from_timecode fps tc_ref extrefs).
Abbreviation switch := (switch from_timecode fps tc_ref extrefs).
Abbreviation main_loop := (main_loop from_timecode fps tc_ref extrefs).

(** The clip of a round is named and referenced after the entry of the
    source current in that round. *)
Lemma next_clip_made_from st c clip frames :
  next_clip st c = Ok (clip, frames) ->
  made_from extrefs (current_source st) clip.
Proof.
  unfold drp.next_clip. intros H. ok_inv H.
  destruct a2 as [| | |nm| |]; try discriminate H.
  injection H as <- _. exists a1. split; [exact Ha1|]. split; [|reflexivity].
  simpl in Ha2. destruct (assoc "name" (src_fields a1)); [|discriminate].
  simpl. congruence.
Qed.

Lemma main_loop_sources timeline_data st st' :
  main_loop st timeline_data = Finished st' ->
  exists clips,
    track st' = track st ++ clips /\
    Forall2 (made_from extrefs)
      (active_sources (current_source st) (up_to_first_sourceless timeline_data))
      clips.
Proof.
  revert st. induction timeline_data as [|c rest IH]; simpl; intros st H.
  - injection H as <-. exists []. rewrite app_nil_r. auto.
  - destruct (switch st c) as [st1|st1|e clips] eqn:Hsw; [| |discriminate].
    + apply switch_Continue in Hsw as (clip & frames & s & Hc & Hs & ->).
      apply IH in H as (clips & Htrack & Hall). simpl in Htrack, Hall.
      exists (clip :: clips). split.
      * rewrite Htrack, <- app_assoc. reflexivity.
      * rewrite Hs. simpl. rewrite Hs.
        constructor; [eapply next_clip_made_from; eassumption | exact Hall].
    + injection H as <-.
      apply switch_Break in Hsw as (clip & frames & Hc & Hs & ->).
      exists [clip]. split; [reflexivity|]. rewrite Hs. simpl.
      constructor; [eapply next_clip_made_from; eassumption | constructor].
Qed.

(** With the cursor and the reference at the rate [fps], so are the start
    and the duration of every clip the loop makes. *)
Lemma main_loop_rates timeline_data st st' :
  rate (current_tc st) = fps ->
  main_loop st timeline_data = Finished st' ->
  exists clips, track st' = track st ++ clips /\ Forall (at_rate fps) clips.
Proof.
  revert st. induction timeline_data as [|c rest IH]; simpl; intros st Hrate H.
  - injection H as <-. exists []. rewrite app_nil_r. auto.
  - destruct (switch st c) as [st1|st1|e clips] eqn:Hsw; [| |discriminate].
    + apply switch_Continue in Hsw as (clip & frames & s & Hc & Hs & ->).
      apply next_clip_range in Hc as (tc & n & _ & _ & -> & Hr).
      apply IH in H as (clips & Htrack & Hall); [|exact Hrate].
      simpl in Htrack. exists (clip :: clips). split.
      * rewrite Htrack, <- app_assoc. reflexivity.
      * constructor; [|exact Hall]. unfold at_rate. rewrite Hr. auto.
    + injection H as <-.
      apply switch_Break in Hsw as (clip & frames & Hc & Hs & ->).
      apply next_clip_range in Hc as (tc & n & _ & _ & -> & Hr).
      exists [clip]. split; [reflexivity|].
      constructor; [|constructor]. unfold at_rate. rewrite Hr. auto.
Qed.

End Clips.

Lemma full_duration_Ok from_timecode fps tc_ref timeline_data full :
  full_duration from_timecode fps tc_ref timeline_data = Ok full ->
  exists c tc n,
    last timeline_data = Some c /\
    getitem c "masterTimecode" = Ok (JStr tc) /\
    from_timecode tc fps = Some n /\
    full = {| value := n - value tc_ref; rate := fps |}.
Proof.
  unfold full_duration. destruct (last timeline_data) as [c|]; [|discriminate].
  intros H. ok_inv H. injection H as <-.
  destruct a as [| | |tc| |]; try discriminate Ha0. simpl in Ha0.
  destruct (from_timecode tc fps) as [n|] eqn:Hn; [|discriminate].
  injection Ha0 as <-. exists c, tc, n. auto.
Qed.

Lemma header_times_Ok from_timecode metadata fps tc_ref :
  header_times from_timecode metadata = Ok (fps, tc_ref) ->
  exists mt n,
    getitem metadata "masterTimecode" = Ok (JStr mt) /\
    video_rate metadata = Ok fps /\
    contains "sources" metadata = Ok true /\
    from_timecode mt fps = Some n /\
    tc_ref = {| value := n; rate := fps |}.
Proof.
  unfold header_times. intros H. ok_inv H.
  destruct a1; [|discriminate]. simpl in H. ok_inv H. injection H as <- <-.
  destruct a as [| | |mt| |]; try discriminate Ha2. simpl in Ha2.
  destruct (from_timecode mt a0) as [n|] eqn:Hn; [|discriminate].
  injection Ha2 as <-. exists mt, n. auto.
Qed.

(** What a returned timeline was made from. *)
Lemma read_from_file_made json_loads from_timecode lines t :
  read_from_file json_loads from_timecode lines = Returned t ->
  exists metadata timeline_data fps tc_ref full sources srcs source,
    read_lines json_loads lines = Ok (metadata, timeline_data) /\
    header_times from_timecode metadata = Ok (fps, tc_ref) /\
    full_duration from_timecode fps tc_ref timeline_data = Ok full /\
    getitem metadata "sources" = Ok sources /\
    iterate sources = Ok srcs /\
    initial_source metadata = Ok source /\
    Forall2
      (fun s clip =>
         exists fields,
           listed_as srcs s fields /\
           file_is_str fields /\
           assoc "name" fields = Some (JStr (name clip)) /\
           media_reference clip =
             stored_ref {| start_time := {| value := 0; rate := fps |};
                           duration := full |} fields)
      (active_sources source (up_to_first_sourceless timeline_data))
      (returned_clips t).
Proof.
  intros H.
  apply read_from_file_Returned in H
    as (metadata & td & fps & tc_ref & extrefs & st & st' & Hlines & Hprep & Hloop & ->).
  apply prepare_Ok in Hprep
    as (full & sources & srcs & source & Hh & Hfull & Hs & Hit & Hadd & Hinit & ->).
  exists metadata, td, fps, tc_ref, full, sources, srcs, source.
  repeat (split; [assumption|]).
  apply main_loop_sources in Hloop as (clips & Htrack & Hall).
  unfold returned_clips. simpl in *. rewrite app_nil_r, Htrack.
  eapply Forall2_impl; [exact Hall|].
  intros s clip (src & Hlookup & Hname & Href).
  unfold lookup_source in Hlookup. apply bind_Ok in Hlookup as (k & Hk & Hlookup).
  destruct (extrefs !! k) as [src'|] eqn:Hentry; [|discriminate].
  injection Hlookup as ->.
  destruct (add_sources_entries _ _ _ _ Hadd k src Hentry)
    as [Hempty|(Hin & Hkey & Hfile & Hstored)].
  { rewrite lookup_empty in Hempty. discriminate. }
  exists (src_fields src). unfold listed_as.
  split; [eauto|]. split; [exact Hfile|]. split; [exact Hname|]. congruence.
Qed.

Lemma stored_ref_Some ar fields r :
  stored_ref ar fields = Some r ->
  assoc "file" fields = Some (JStr (target_url r)) /\ available_range r = ar.
Proof.
  unfold stored_ref. destruct (assoc "file" fields) as [[| | |url| |]|]; try discriminate.
  intros [= <-]. auto.
Qed.

(** X1.  In a returned timeline every media reference has one and the same
    available range: it starts at 0 and lasts the frames from the reference
    timecode to the timecode of the last line of the file, at the rate of
    the header, whatever the file and wherever the loop stopped. *)
Theorem media_references_span_the_show
    (json_loads : string -> option json) (from_timecode : string -> Z -> option Z)
    (lines : list string) (t : Timeline) :
  read_from_file json_loads from_timecode lines = Returned t ->
  exists metadata timeline_data fps tc_ref c tc n,
    read_lines json_loads lines = Ok (metadata, timeline_data) /\
    header_times from_timecode metadata = Ok (fps, tc_ref) /\
    last timeline_data = Some c /\
    getitem c "masterTimecode" = Ok (JStr tc) /\
    from_timecode tc fps = Some n /\
    forall clip r,
      In clip (returned_clips t) ->
      media_reference clip = Some r ->
      available_range r =
        {| start_time := {| value := 0; rate := fps |};
           duration := {| value := n - value tc_ref; rate := fps |} |}.
Proof.
  intros H.
  apply read_from_file_made in H
    as (metadata & td & fps & tc_ref & full & sources & srcs & source
        & Hlines & Hh & Hfull & _ & _ & _ & Hall).
  apply full_duration_Ok in Hfull as (c & tc & n & Hlast & Htc & Hn & ->).
  exists metadata, td, fps, tc_ref, c, tc, n.
  repeat (split; [assumption|]).
  intros clip r Hin Hr.
  apply list_elem_of_In, list_elem_of_lookup in Hin as [i Hi].
  destruct (Forall2_lookup_r _ _ _ _ _ Hall Hi) as (s & _ & fields & _ & _ & _ & Href).
  rewrite Hr in Href. symmetry in Href.
  apply stored_ref_Some in Href as [_ Hrange]. exact Hrange.
Qed.

Lemma media_references_on_show_and_more :
  exists t,
    Log.read Log.show_and_more = Returned t /\
    map media_reference (returned_clips t) =
      [None;
       Some {| target_url := "CAM 2.mp4";
               available_range :=
                 {| start_time := {| value := 0; rate := 25 |};
                    duration := {| value := 100; rate := 25 |} |} |};
       Some {| target_url := "CAM 1.mp4";
               available_range :=
                 {| start_time := {| value := 0; rate := 25 |};
                    duration := {| value := 100; rate := 25 |} |} |}] /\
    exists metadata timeline_data fps tc_ref c tc n,
      read_lines Sample.json_loads Log.show_and_more = Ok (metadata, timeline_data) /\
      header_times Sample.from_timecode metadata = Ok (fps, tc_ref) /\
      last timeline_data = Some c /\
      getitem c "masterTimecode" = Ok (JStr tc) /\
      Sample.from_timecode tc fps = Some n /\
      forall clip r,
        In clip (returned_clips t) ->
        media_reference clip = Some r ->
        available_range r =
          {| start_time := {| value := 0; rate := fps |};
             duration := {| value := n - value tc_ref; rate := fps |} |}.
Proof.
  eexists. split; [vm_compute; reflexivity|]. split; [reflexivity|].
  apply (media_references_span_the_show Sample.json_loads Sample.from_timecode
           Log.show_and_more).
  vm_compute. reflexivity.
Defined.

(** X2.  The clips of a returned timeline follow the switches: the first
    clip is made from the source the header starts on (0 where line 79
    sets it), each later clip from the source the switch before names.
    A clip made from a source has the ["name"] of a source of the header
    with that index, no media reference where that source has no ["file"],
    and a reference to its ["file"] where it has one. *)
Theorem clips_follow_the_switches
    (json_loads : string -> option json) (from_timecode : string -> Z -> option Z)
    (lines : list string) (t : Timeline) :
  read_from_file json_loads from_timecode lines = Returned t ->
  exists metadata timeline_data sources srcs source,
    read_lines json_loads lines = Ok (metadata, timeline_data) /\
    getitem metadata "sources" = Ok sources /\
    iterate sources = Ok srcs /\
    initial_source metadata = Ok source /\
    Forall2
      (fun s clip =>
         exists fields,
           listed_as srcs s fields /\
           assoc "name" fields = Some (JStr (name clip)) /\
           (assoc "file" fields = None -> media_reference clip = None) /\
           (forall file,
               assoc "file" fields = Some file ->
               exists r, media_reference clip = Some r /\ file = JStr (target_url r)))
      (active_sources source (up_to_first_sourceless timeline_data))
      (returned_clips t).
Proof.
  intros H.
  apply read_from_file_made in H
    as (metadata & td & fps & tc_ref & full & sources & srcs & source
        & Hlines & _ & _ & Hs & Hit & Hinit & Hall).
  exists metadata, td, sources, srcs, source.
  repeat (split; [assumption|]).
  eapply Forall2_impl; [exact Hall|].
  intros s clip (fields & Hlisted & Hfile & Hname & Href).
  exists fields. split; [exact Hlisted|]. split; [exact Hname|].
  unfold stored_ref in Href. split.
  - intros Hnone. rewrite Hnone in Href. exact Href.
  - intros file Hsome. destruct Hfile as [Hnone|[url Hurl]]; [congruence|].
    rewrite Hurl in Href. eexists. split; [exact Href|]. simpl. congruence.
Qed.

Lemma clips_follow_the_switches_on_show :
  exists t,
    Log.read Log.show_and_more = Returned t /\
    map name (returned_clips t) = ["Black"; "Camera 2"; "Camera 1"] /\
    active_sources (JNum 0)
      (up_to_first_sourceless
         (map Log.decoded [Log.to_2_at_25; Log.to_1_at_50; Log.end_at_75;
                           Log.to_2_at_100]))
    = [JNum 0; JNum 2; JNum 1] /\
    exists metadata timeline_data sources srcs source,
      read_lines Sample.json_loads Log.show_and_more = Ok (metadata, timeline_data) /\
      getitem metadata "sources" = Ok sources /\
      iterate sources = Ok srcs /\
      initial_source metadata = Ok source /\
      Forall2
        (fun s clip =>
           exists fields,
             listed_as srcs s fields /\
             assoc "name" fields = Some (JStr (name clip)) /\
             (assoc "file" fields = None -> media_reference clip = None) /\
             (forall file,
                 assoc "file" fields = Some file ->
                 exists r, media_reference clip = Some r /\ file = JStr (target_url r)))
        (active_sources source (up_to_first_sourceless timeline_data))
        (returned_clips t).
Proof.
  eexists. split; [vm_compute; reflexivity|].
  split; [reflexivity|]. split; [reflexivity|].
  apply (clips_follow_the_switches Sample.json_loads Sample.from_timecode
           Log.show_and_more).
  vm_compute. reflexivity.
Defined.

(** X4.  Where the first switch names no source, the timeline returned has
    exactly one clip: it starts at frame 0, its duration is the frames from
    the reference to that switch, and it is made from the source the header
    starts on. *)
Theorem one_clip_when_first_switch_is_sourceless
    (json_loads : string -> option json) (from_timecode : string -> Z -> option Z)
    (lines : list string) (metadata c : json) (rest : list json) (t : Timeline) :
  read_lines json_loads lines = Ok (metadata, c :: rest) ->
  names_no_source c ->
  read_from_file json_loads from_timecode lines = Returned t ->
  exists fps tc_ref sources srcs source fields clip,
    header_times from_timecode metadata = Ok (fps, tc_ref) /\
    getitem metadata "sources" = Ok sources /\
    iterate sources = Ok srcs /\
    initial_source metadata = Ok source /\
    returned_clips t = [clip] /\
    clip_start clip = 0 /\
    emitted_at from_timecode fps tc_ref c clip /\
    listed_as srcs source fields /\
    assoc "name" fields = Some (JStr (name clip)).
Proof.
  intros Hlines Hc H.
  pose proof (read_from_file_made _ _ _ _ H)
    as (metadata' & td' & fps & tc_ref & full & sources & srcs & source
        & Hlines' & Hh & _ & Hs & Hit & Hinit & Hall).
  rewrite Hlines in Hlines'. injection Hlines' as <- <-.
  simpl in Hall. unfold names_no_source in Hc. rewrite Hc in Hall. simpl in Hall.
  apply Forall2_cons_inv_l in Hall as (clip & clips & Hclip & Hnil & Hclips).
  apply Forall2_nil_inv_l in Hnil as ->.
  destruct Hclip as (fields & Hlisted & _ & Hname & _).
  apply read_from_file_Returned in H
    as (metadata' & td' & fps' & tc_ref' & extrefs & st & st'
        & Hlines' & Hprep & Hloop & ->).
  rewrite Hlines in Hlines'. injection Hlines' as <- <-.
  apply prepare_Ok in Hprep as (? & ? & ? & source' & Hh' & _ & _ & _ & _ & _ & ->).
  rewrite Hh in Hh'. injection Hh' as <- <-.
  unfold returned_clips in Hclips. simpl in Hclips. rewrite app_nil_r in Hclips.
  simpl in Hloop.
  destruct (switch from_timecode fps tc_ref extrefs _ c) as [st1|st1|e cl] eqn:Hsw;
    [| |discriminate].
  { apply switch_Continue in Hsw as (? & ? & ? & _ & Hsome & _). congruence. }
  injection Hloop as <-.
  apply switch_Break in Hsw as (clip' & frames & Hnext & _ & ->).
  simpl in Hclips. injection Hclips as ->.
  exists fps, tc_ref, sources, srcs, source, fields, clip.
  repeat (split; [assumption|]).
  split; [reflexivity|]. split.
  - apply next_clip_range in Hnext as (? & ? & _ & _ & _ & Hr).
    unfold clip_start. rewrite Hr. reflexivity.
  - split; [eapply next_clip_emitted; eassumption|]. auto.
Qed.

Lemma one_clip_on_sample :
  exists t,
    Log.read [Log.header_source_1_only; Log.end_at_75; Log.to_2_at_100] = Returned t /\
    map name (returned_clips t) = ["Camera 1"] /\
    map clip_duration (returned_clips t) = [75] /\
    exists fps tc_ref sources srcs source fields clip,
      header_times Sample.from_timecode (Log.decoded Log.header_source_1_only)
      = Ok (fps, tc_ref) /\
      getitem (Log.decoded Log.header_source_1_only) "sources" = Ok sources /\
      iterate sources = Ok srcs /\
      initial_source (Log.decoded Log.header_source_1_only) = Ok source /\
      returned_clips t = [clip] /\
      clip_start clip = 0 /\
      emitted_at Sample.from_timecode fps tc_ref (Log.decoded Log.end_at_75) clip /\
      listed_as srcs source fields /\
      assoc "name" fields = Some (JStr (name clip)).
Proof.
  eexists. split; [vm_compute; reflexivity|].
  split; [reflexivity|]. split; [reflexivity|].
  apply (one_clip_when_first_switch_is_sourceless
           Sample.json_loads Sample.from_timecode
           [Log.header_source_1_only; Log.end_at_75; Log.to_2_at_100]
           (Log.decoded Log.header_source_1_only) (Log.decoded Log.end_at_75)
           [Log.decoded Log.to_2_at_100]).
  - reflexivity.
  - reflexivity.
  - vm_compute. reflexivity.
Defined.

(** X9.  Every time of a returned timeline is at the rate read from the
    video mode of the header: the start and the duration of each clip are
    times at that rate. *)
Theorem clips_at_the_header_rate
    (json_loads : string -> option json) (from_timecode : string -> Z -> option Z)
    (lines : list string) (t : Timeline) :
  read_from_file json_loads from_timecode lines = Returned t ->
  exists metadata timeline_data fps,
    read_lines json_loads lines = Ok (metadata, timeline_data) /\
    video_rate metadata = Ok fps /\
    Forall (at_rate fps) (returned_clips t).
Proof.
  intros H.
  apply read_from_file_Returned in H
    as (metadata & td & fps & tc_ref & extrefs & st & st' & Hlines & Hprep & Hloop & ->).
  apply prepare_Ok in Hprep as (? & ? & ? & source & Hh & _ & _ & _ & _ & _ & ->).
  apply header_times_Ok in Hh as (mt & n & _ & Hrate & _ & _ & _).
  exists metadata, td, fps. split; [exact Hlines|]. split; [exact Hrate|].
  apply main_loop_rates in Hloop as (clips & Htrack & Hall); [|reflexivity].
  unfold returned_clips. simpl in *. rewrite app_nil_r, Htrack. exact Hall.
Qed.

Lemma clips_at_25_on_show :
  exists t,
    Log.read Log.show = Returned t /\
    exists metadata timeline_data fps,
      read_lines Sample.json_loads Log.show = Ok (metadata, timeline_data) /\
      video_rate metadata = Ok fps /\
      Forall (at_rate fps) (returned_clips t).
Proof.
  eexists. split; [vm_compute; reflexivity|].
  apply (clips_at_the_header_rate Sample.json_loads Sample.from_timecode Log.show).
  vm_compute. reflexivity.
Defined.

(** ** Lines the reading stops at *)

(** X6.  The header is looked into in the order of lines 36 to 45: a
    header that is no object ends the reading with [TypeError], one without
    ["masterTimecode"] with [KeyError], and one with it but without
    ["videoMode"] with [KeyError] too, whether it has ["sources"] or not;
    no clip is made. *)
Theorem header_keys_come_first
    (json_loads : string -> option json) (from_timecode : string -> Z -> option Z)
    (lines : list string) (metadata : json) (timeline_data : list json) :
  read_lines json_loads lines = Ok (metadata, timeline_data) ->
  ((forall fields, metadata <> JObj fields) ->
   read_from_file json_loads from_timecode lines = Raised TypeError []) /\
  (forall fields,
      metadata = JObj fields ->
      assoc "masterTimecode" fields = None \/ assoc "videoMode" fields = None ->
      read_from_file json_loads from_timecode lines = Raised KeyError []).
Proof.
  intros Hlines. unfold read_from_file. rewrite Hlines.
  unfold prepare, header_times, video_rate. split.
  - intros Hnot. destruct metadata; try reflexivity. destruct (Hnot fields eq_refl).
  - intros fields -> [Hnone|Hnone]; simpl.
    + rewrite Hnone. reflexivity.
    + destruct (assoc "masterTimecode" fields); [|reflexivity].
      simpl. rewrite Hnone. reflexivity.
Qed.

Lemma header_keys_on_samples :
  Log.read [Edge.header_array; Log.end_at_75] = Raised TypeError [] /\
  Log.read [Edge.header_without_timecode; Log.end_at_75] = Raised KeyError [] /\
  Log.read [Edge.header_without_mode; Log.end_at_75] = Raised KeyError [].
Proof.
  split; [|split].
  - apply (proj1 (header_keys_come_first Sample.json_loads Sample.from_timecode
                    [Edge.header_array; Log.end_at_75]
                    (Log.decoded Edge.header_array) [Log.decoded Log.end_at_75]
                    eq_refl)).
    intros fields. discriminate.
  - apply (proj2 (header_keys_come_first Sample.json_loads Sample.from_timecode
                    [Edge.header_without_timecode; Log.end_at_75]
                    (Log.decoded Edge.header_without_timecode)
                    [Log.decoded Log.end_at_75] eq_refl)
             (Log.fields_of Edge.header_without_timecode) eq_refl).
    left. reflexivity.
  - apply (proj2 (header_keys_come_first Sample.json_loads Sample.from_timecode
                    [Edge.header_without_mode; Log.end_at_75]
                    (Log.decoded Edge.header_without_mode)
                    [Log.decoded Log.end_at_75] eq_refl)
             (Log.fields_of Edge.header_without_mode) eq_refl).
    right. reflexivity.
Defined.

(** X8.  The timecode of the last line is read on lines 50 and 51, before
    any clip is made: where the header passes lines 36 to 47 and the last
    line has no ["masterTimecode"], or one that [from_timecode] refuses,
    the reading ends with [KeyError], or [ValueError], and no clip, also
    when the loop would have stopped before that line. *)
Theorem last_timecode_is_read_first
    (json_loads : string -> option json) (from_timecode : string -> Z -> option Z)
    (lines : list string) (metadata : json) (timeline_data : list json)
    (fps : Z) (tc_ref : RationalTime) (fields : list (string * json)) :
  read_lines json_loads lines = Ok (metadata, timeline_data) ->
  header_times from_timecode metadata = Ok (fps, tc_ref) ->
  last timeline_data = Some (JObj fields) ->
  (assoc "masterTimecode" fields = None ->
   read_from_file json_loads from_timecode lines = Raised KeyError []) /\
  (forall tc,
      assoc "masterTimecode" fields = Some (JStr tc) ->
      from_timecode tc fps = None ->
      read_from_file json_loads from_timecode lines = Raised ValueError []).
Proof.
  intros Hlines Hh Hlast. unfold read_from_file. rewrite Hlines.
  unfold prepare. rewrite Hh. simpl. unfold full_duration. rewrite Hlast. simpl.
  split.
  - intros ->. reflexivity.
  - intros tc -> Hnone. simpl. rewrite Hnone. reflexivity.
Qed.

Lemma bad_timecode_after_the_end :
  Log.read [Log.header; Log.to_2_at_25; Log.end_at_75; Edge.bad_timecode]
  = Raised ValueError [] /\
  exists t, Log.read [Log.header; Log.to_2_at_25; Log.end_at_75] = Returned t.
Proof.
  split.
  - apply (proj2 (last_timecode_is_read_first Sample.json_loads Sample.from_timecode
                    [Log.header; Log.to_2_at_25; Log.end_at_75; Edge.bad_timecode]
                    (Log.decoded Log.header)
                    (map Log.decoded [Log.to_2_at_25; Log.end_at_75; Edge.bad_timecode])
                    25 Log.reference (Log.fields_of Edge.bad_timecode)
                    eq_refl eq_refl eq_refl)
             "later"); reflexivity.
  - eexists. vm_compute. reflexivity.
Defined.

(** X7.  A switch without ["mixEffectBlocks"], or whose blocks are the
    empty array, does not end the show as a first block without ["source"]
    does: its round makes its clip and appends it to the track, then line
    102 raises [KeyError], or [IndexError], and no timeline is returned. *)
Theorem switch_without_blocks_aborts
    (json_loads : string -> option json) (from_timecode : string -> Z -> option Z)
    (lines : list string) (metadata : json)
    (pre : list json) (fields : list (string * json)) (post : list json)
    (fps : Z) (tc_ref : RationalTime) (extrefs : gmap pykey Source)
    (st st1 : loop_state) (clip : Clip) (frames : RationalTime) :
  read_lines json_loads lines = Ok (metadata, pre ++ JObj fields :: post) ->
  prepare from_timecode metadata (pre ++ JObj fields :: post)
  = Ok (fps, tc_ref, extrefs, st) ->
  Forall names_source pre ->
  main_loop from_timecode fps tc_ref extrefs st pre = Finished st1 ->
  next_clip from_timecode fps tc_ref extrefs st1 (JObj fields) = Ok (clip, frames) ->
  (assoc "mixEffectBlocks" fields = None ->
   read_from_file json_loads from_timecode lines
   = Raised KeyError (track st1 ++ [clip])) /\
  (assoc "mixEffectBlocks" fields = Some (JArr []) ->
   read_from_file json_loads from_timecode lines
   = Raised IndexError (track st1 ++ [clip])).
Proof.
  intros Hlines Hprep Hpre Hloop Hclip.
  unfold read_from_file. rewrite Hlines, Hprep.
  rewrite (main_loop_app from_timecode fps tc_ref extrefs pre (JObj fields :: post)
             st st1 Hpre Hloop).
  cbn [main_loop]. unfold switch. rewrite Hclip.
  unfold next_source. simpl.
  split; intros ->; reflexivity.
Qed.

Lemma switch_without_blocks_on_samples :
  exists clip,
    name clip = "Black" /\
    Log.read [Log.header; Edge.no_blocks_at_50] = Raised KeyError ([] ++ [clip]) /\
    Log.read [Log.header; Edge.empty_blocks_at_50] = Raised IndexError ([] ++ [clip]).
Proof.
  exists {| name := "Black";
            media_reference := None;
            source_range := {| start_time := {| value := 0; rate := 25 |};
                               duration := {| value := 50; rate := 25 |} |} |}.
  split; [reflexivity|]. split.
  - refine (proj1 (switch_without_blocks_aborts
                     Sample.json_loads Sample.from_timecode
                     [Log.header; Edge.no_blocks_at_50] (Log.decoded Log.header)
                     [] (Log.fields_of Edge.no_blocks_at_50) []
                     25 Log.reference
                     (Log.catalogue [Log.header; Edge.no_blocks_at_50])
                     (Log.start (JNum 0)) (Log.start (JNum 0))
                     _ {| value := 50; rate := 25 |} _ _ _ _ _) _);
      try (vm_compute; reflexivity).
    constructor.
  - vm_compute. reflexivity.
Defined.

(** ** The rate in the video mode *)








(** ** The name of the timeline *)










(** ** How many clips, and how long *)

Lemma contiguous_total from clips to :
  contiguous from clips to -> total_duration clips = to - from.
Proof.
  revert from. induction clips as [|c clips IH]; simpl; intros from H.
  - lia.
  - destruct H as [_ H]. rewrite (IH _ H). lia.
Qed.

Lemma contiguous_last from clips to clip :
  contiguous from clips to ->
  last clips = Some clip ->
  to = clip_start clip + clip_duration clip.
Proof.
  revert from. induction clips as [|c clips IH]; simpl; intros from H Hlast.
  - discriminate.
  - destruct H as [Hc H]. destruct clips as [|c' clips].
    + injection Hlast as <-. simpl in H. lia.
    + eapply IH; [exact H | exact Hlast].
Qed.

Lemma up_to_first_sourceless_length timeline_data :
  (length (up_to_first_sourceless timeline_data) <= length timeline_data)%nat /\
  (timeline_data <> [] -> (1 <= length (up_to_first_sourceless timeline_data))%nat).
Proof.
  induction timeline_data as [|c rest [IH _]]; simpl.
  - split; [lia | congruence].
  - destruct (next_source c) as [[s|]|e]; simpl; split; intros; lia.
Qed.

(** X12.  In a returned timeline the durations of the clips add up to the
    frame where the last clip ends, its start frame plus its duration. *)
Theorem durations_add_up_to_the_end
    (json_loads : string -> option json) (from_timecode : string -> Z -> option Z)
    (lines : list string) (t : Timeline) (clip : Clip) :
  read_from_file json_loads from_timecode lines = Returned t ->
  last (returned_clips t) = Some clip ->
  total_duration (returned_clips t) = clip_start clip + clip_duration clip.
Proof.
  intros H Hlast.
  apply read_from_file_Returned in H
    as (metadata & td & fps & tc_ref & extrefs & st & st' & _ & Hprep & Hloop & ->).
  apply prepare_Ok in Hprep as (? & ? & ? & source & _ & _ & _ & _ & _ & _ & ->).
  apply main_loop_contiguous in Hloop; [|reflexivity].
  unfold returned_clips in *. simpl in Hlast |- *. rewrite app_nil_r in *.
  rewrite (contiguous_total _ _ _ Hloop), (contiguous_last _ _ _ _ Hloop Hlast).
  lia.
Qed.

Lemma durations_add_up_on_show :
  exists t clip,
    Log.read Log.show = Returned t /\
    last (returned_clips t) = Some clip /\
    clip_start clip + clip_duration clip = 150 /\
    total_duration (returned_clips t) = clip_start clip + clip_duration clip.
Proof.
  eexists _, _. split; [vm_compute; reflexivity|].
  split; [reflexivity|]. split; [reflexivity|].
  apply (durations_add_up_to_the_end Sample.json_loads Sample.from_timecode Log.show);
    reflexivity.
Defined.

(** X13.  A returned timeline has at least one clip, and no more clips
    than the file has lines after the header. *)
Theorem clips_between_one_and_the_lines
    (json_loads : string -> option json) (from_timecode : string -> Z -> option Z)
    (lines : list string) (t : Timeline) :
  read_from_file json_loads from_timecode lines = Returned t ->
  (1 <= length (returned_clips t) <= length (tl lines))%nat.
Proof.
  intros H.
  apply read_from_file_Returned in H
    as (metadata & td & fps & tc_ref & extrefs & st & st' & Hlines & Hprep & Hloop & ->).
  apply read_lines_Ok in Hlines as [_ Hswitches].
  apply read_switches_Ok in Hswitches as (new & -> & Hnew).
  apply Forall2_length in Hnew. simpl in *.
  apply prepare_Ok in Hprep as (full & ? & ? & source & _ & Hfull & _ & _ & _ & _ & ->).
  apply main_loop_clips in Hloop as (clips & Htrack & Hall).
  apply Forall2_length in Hall.
  unfold returned_clips. simpl in *. rewrite app_nil_r, Htrack, <- Hall, Hnew.
  destruct (up_to_first_sourceless_length new) as [Hle Hge].
  split; [|exact Hle]. apply Hge. intros ->. discriminate Hfull.
Qed.

Lemma clips_between_on_show_and_more :
  exists t,
    Log.read Log.show_and_more = Returned t /\
    length (returned_clips t) = 3%nat /\
    (1 <= length (returned_clips t) <= length (tl Log.show_and_more))%nat.
Proof.
  eexists. split; [vm_compute; reflexivity|]. split; [reflexivity|].
  apply (clips_between_one_and_the_lines Sample.json_loads Sample.from_timecode
           Log.show_and_more).
  vm_compute. reflexivity.
Defined.

(** ** The exceptions of the initial scene *)

(** X11.  Lines 76 to 79 never end with [KeyError]: the only exceptions
    that leave them are the [IndexError] of an empty first subscript and
    [TypeError].  A ["mixEffectBlocks"] that is the empty array gives
    [IndexError], one that is [null] gives [TypeError], and where the first
    block is an object with ["source"], that value is the initial source
    as it stands. *)
Theorem initial_source_exceptions (metadata : json) :
  (forall e, initial_source metadata = Raise e -> e = IndexError \/ e = TypeError) /\
  (forall fields,
      metadata = JObj fields ->
      (assoc "mixEffectBlocks" fields = Some (JArr []) ->
       initial_source metadata = Raise IndexError) /\
      (assoc "mixEffectBlocks" fields = Some JNull ->
       initial_source metadata = Raise TypeError) /\
      (forall first rest s,
          assoc "mixEffectBlocks" fields = Some (JArr (JObj first :: rest)) ->
          assoc "source" first = Some s ->
          initial_source metadata = Ok s)).
Proof.
  split.
  - intros e. unfold initial_source, try_except.
    destruct (getitem metadata "mixEffectBlocks") as [blocks|e1] eqn:Hb; simpl.
    + destruct (getitem0 blocks) as [first|e2] eqn:Hf; simpl.
      * destruct (getitem first "source") as [s|e3] eqn:Hs; [discriminate|].
        destruct first; simpl in Hs; try (injection Hs as <-; simpl; intros [= <-]; auto).
        destruct (assoc "source" fields); [discriminate|].
        injection Hs as <-. discriminate.
      * destruct blocks as [| | |[|c s]|[|x l]|]; simpl in Hf; try discriminate;
          injection Hf as <-; simpl; try discriminate; intros [= <-]; auto.
    + destruct metadata; simpl in Hb; try (injection Hb as <-; simpl; intros [= <-]; auto).
      destruct (assoc "mixEffectBlocks" fields); [discriminate|].
      injection Hb as <-. discriminate.
  - intros fields ->. unfold initial_source. simpl. split; [|split].
    + intros ->. reflexivity.
    + intros ->. reflexivity.
    + intros first rest s -> Hs. simpl. rewrite Hs. reflexivity.
Qed.

Lemma initial_source_exceptions_on_samples :
  initial_source (Log.decoded Log.header_no_blocks) = Raise IndexError /\
  initial_source (Log.decoded Log.header_source_1_only) = Ok (JNum 1).
Proof.
  destruct (initial_source_exceptions (Log.decoded Log.header_no_blocks))
    as [_ Hcases].
  destruct (Hcases (Log.fields_of Log.header_no_blocks) eq_refl) as [Hempty _].
  destruct (initial_source_exceptions (Log.decoded Log.header_source_1_only))
    as [_ Hcases1].
  destruct (Hcases1 (Log.fields_of Log.header_source_1_only) eq_refl) as (_ & _ & Hsome).
  split.
  - apply Hempty. reflexivity.
  - apply (Hsome [("source", JNum 1)] [] (JNum 1)); reflexivity.
Defined.
